(** * Swayam1000/FL: the MetadataStorage contract and the training dashboard

    A shallow embedding of three programs of the repository:

    - [MetadataStorage] (Solidity, [pragma solidity ^0.8.19]): the
      mapping-backed record store with owner-gated writes;
    - [Dashboard] ([petrolpump_manager/frontend/static/script.js]): the poll
      cycle [fetchAndUpdateData], the status panel [updateFlowerStatus],
      the two table renderers and the two buttons;
    - [App] ([ethereum-dapp/frontend/src/App.js]): the text of the file
      digest, the tags, and the list read back from the contract.

    Definitions come first, one module per program; the theorems follow in
    [MetadataStorageSpec], [DashboardSpec] and [AppSpec]. *)

From Stdlib Require Import ZArith NArith Ascii Floats Sorted Permutation Lia.
From Stdlib Require Uint63.
From Stdlib Require Strings.Byte.
From stdpp Require Import gmap strings list pretty sorting.

Open Scope string_scope.

(* ===================================================================== *)
(** * Part I: the contract [MetadataStorage]                              *)
(* ===================================================================== *)

Module MetadataStorage.

(** ** Data *)

(** [uint256] values are naturals below [2^256]; [address] values are
    naturals too (160 bits, never computed with). *)
Definition uint256_max : N := 2 ^ 256 - 1.
Definition address := N.

(** [struct Metadata]. The nested [mapping(string => string) customFields]
    is a finite map read with the default [""]. *)
Record Metadata := mkMetadata {
  title : string;
  description : string;
  owner : address;
  timestamp : N;
  tags : list string;
  fileHash : string;
  customFields : gmap string string
}.

(** The value every slot of a Solidity mapping holds before it is written. *)
Definition zero_Metadata : Metadata :=
  mkMetadata "" "" 0%N 0%N [] "" ∅.

#[export] Instance Metadata_inhabited : Inhabited Metadata :=
  populate zero_Metadata.

(** Contract storage: [metadataStore] and [metadataCount]. A mapping is
    total, so the store is always read with [!!!] (absent key = zero
    record). *)
Record Storage := mkStorage {
  metadataStore : gmap N Metadata;
  metadataCount : N
}.

Inductive Event :=
| MetadataCreated (id : N) (title : string) (owner : address) (fileHash : string)
| MetadataUpdated (id : N) (title : string) (owner : address)
| CustomFieldAdded (id : N) (key value : string)
| FileHashUpdated (id : N) (fileHash : string).

(** What a transaction works on: the storage and the event log. *)
Record World := mkWorld {
  storage : Storage;
  logs : list Event
}.

(** The constructor leaves [metadataCount] at 0 and the mapping empty. *)
Definition initial : World := mkWorld (mkStorage ∅ 0%N) [].

(** [msg.sender] and [block.timestamp] of one call. *)
Record Msg := mkMsg {
  msg_sender : address;
  block_timestamp : N
}.

(** A failed call: [require(c, reason)] reverts with [Error(reason)];
    checked arithmetic reverts with [Panic(code)]. *)
Inductive Failure :=
| Error (reason : string)
| Panic (code : N).

(** The two errors of the specification's taxonomy. *)
Definition NotFound : Failure := Error "Metadata does not exist".
Definition Unauthorized : Failure := Error "Not the owner".
Definition arithmetic_overflow : Failure := Panic 17.

(** ** A state monad with revert

    A function body maps the world it starts in to the value it returns
    and the world it leaves, or to a revert. [Reverted f w] records the
    world [w] the body had reached when it failed, *before* the EVM
    rolls the transaction back: that a failing [require] precedes every
    write is then a property of the body and not of the rollback. *)
Inductive Outcome (A : Type) :=
| Returned (a : A) (w : World)
| Reverted (f : Failure) (w : World).
Arguments Returned {A} a w.
Arguments Reverted {A} f w.

Definition Tx (A : Type) : Type := World → Outcome A.

Definition ret {A} (a : A) : Tx A := λ w, Returned a w.

Definition bind {A B} (m : Tx A) (k : A → Tx B) : Tx B :=
  λ w, match m w with
       | Returned a w' => k a w'
       | Reverted f w' => Reverted f w'
       end.

Notation "'let*' x ':=' m 'in' k" := (bind m (λ x, k))
  (at level 10, x name, m at level 100, k at level 200).
Notation "m ';;' k" := (bind m (λ _, k))
  (at level 100, k at level 200, right associativity).

Definition require (c : bool) (reason : string) : Tx unit :=
  λ w, if c then Returned tt w else Reverted (Error reason) w.

Definition read {A} (f : Storage → A) : Tx A :=
  λ w, Returned (f (storage w)) w.

Definition write (f : Storage → Storage) : Tx unit :=
  λ w, Returned tt (mkWorld (f (storage w)) (logs w)).

Definition emit (e : Event) : Tx unit :=
  λ w, Returned tt (mkWorld (storage w) (logs w ++ [e])).

(** The EVM's view of an external call: a revert discards whatever the
    body wrote. *)
Definition call {A} (m : Tx A) (w : World) : (Failure + A) * World :=
  match m w with
  | Returned a w' => (inr a, w')
  | Reverted f _ => (inl f, w)
  end.

(** ** Storage writes, one field at a time *)

Definition set_title (v : string) (r : Metadata) : Metadata :=
  mkMetadata v (description r) (owner r) (timestamp r) (tags r) (fileHash r) (customFields r).
Definition set_description (v : string) (r : Metadata) : Metadata :=
  mkMetadata (title r) v (owner r) (timestamp r) (tags r) (fileHash r) (customFields r).
Definition set_owner (v : address) (r : Metadata) : Metadata :=
  mkMetadata (title r) (description r) v (timestamp r) (tags r) (fileHash r) (customFields r).
Definition set_timestamp (v : N) (r : Metadata) : Metadata :=
  mkMetadata (title r) (description r) (owner r) v (tags r) (fileHash r) (customFields r).
Definition set_tags (v : list string) (r : Metadata) : Metadata :=
  mkMetadata (title r) (description r) (owner r) (timestamp r) v (fileHash r) (customFields r).
Definition set_fileHash (v : string) (r : Metadata) : Metadata :=
  mkMetadata (title r) (description r) (owner r) (timestamp r) (tags r) v (customFields r).
Definition set_customField (k v : string) (r : Metadata) : Metadata :=
  mkMetadata (title r) (description r) (owner r) (timestamp r) (tags r) (fileHash r)
             (<[k := v]> (customFields r)).

(** [metadataStore[id].field = v] *)
Definition store_at (id : N) (f : Metadata → Metadata) : Tx unit :=
  write (λ s, mkStorage (<[id := f (metadataStore s !!! id)]> (metadataStore s))
                        (metadataCount s)).

(** [metadataCount++]: the old value is the result; Solidity 0.8 checks
    the increment and reverts with [Panic(0x11)] when it would leave
    [uint256]. *)
Definition post_increment_metadataCount : Tx N :=
  λ w, let c := metadataCount (storage w) in
       if (c <? uint256_max)%N
       then Returned c (mkWorld (mkStorage (metadataStore (storage w)) (c + 1)%N) (logs w))
       else Reverted arithmetic_overflow w.

(** ** The contract's functions *)

Definition createMetadata (msg : Msg) (_title _description : string)
    (_tags : list string) (_fileHash : string) : Tx N :=
  let* metadataId := post_increment_metadataCount in
  store_at metadataId (set_title _title) ;;
  store_at metadataId (set_description _description) ;;
  store_at metadataId (set_owner (msg_sender msg)) ;;
  store_at metadataId (set_timestamp (block_timestamp msg)) ;;
  store_at metadataId (set_tags _tags) ;;
  store_at metadataId (set_fileHash _fileHash) ;;
  emit (MetadataCreated metadataId _title (msg_sender msg) _fileHash) ;;
  ret metadataId.

Definition updateFileHash (msg : Msg) (_id : N) (_newFileHash : string) : Tx unit :=
  let* count := read metadataCount in
  require (_id <? count)%N "Metadata does not exist" ;;
  let* record := read (λ s, metadataStore s !!! _id) in
  require (bool_decide (msg_sender msg = owner record)) "Not the owner" ;;
  store_at _id (set_fileHash _newFileHash) ;;
  emit (FileHashUpdated _id _newFileHash).

Definition addCustomField (msg : Msg) (_id : N) (_key _value : string) : Tx unit :=
  let* count := read metadataCount in
  require (_id <? count)%N "Metadata does not exist" ;;
  let* record := read (λ s, metadataStore s !!! _id) in
  require (bool_decide (msg_sender msg = owner record)) "Not the owner" ;;
  store_at _id (set_customField _key _value) ;;
  emit (CustomFieldAdded _id _key _value).

(** The [view] functions cannot write: they are functions of the storage. *)
Definition getMetadata (s : Storage) (_id : N)
  : Failure + (string * string * address * N * list string * string) :=
  if (_id <? metadataCount s)%N
  then let metadata := metadataStore s !!! _id in
       inr (title metadata, description metadata, owner metadata,
            timestamp metadata, tags metadata, fileHash metadata)
  else inl NotFound.

Definition getCustomField (s : Storage) (_id : N) (_key : string) : Failure + string :=
  if (_id <? metadataCount s)%N
  then inr (customFields (metadataStore s !!! _id) !!! _key)
  else inl NotFound.

Definition getMetadataCount (s : Storage) : N := metadataCount s.

(** ** Sequences of transactions *)

(** One state-changing transaction sent to the contract. *)
Inductive Transaction :=
| CreateMetadata (title description : string) (tags : list string) (fileHash : string)
| UpdateFileHash (id : N) (newFileHash : string)
| AddCustomField (id : N) (key value : string).

(** The world after a transaction is mined (reverted ones change nothing). *)
Definition execute (msg : Msg) (t : Transaction) (w : World) : World :=
  match t with
  | CreateMetadata t d tg h => snd (call (createMetadata msg t d tg h) w)
  | UpdateFileHash i h => snd (call (updateFileHash msg i h) w)
  | AddCustomField i k v => snd (call (addCustomField msg i k v) w)
  end.

(** The arguments of one [createMetadata] call. *)
Record CreateCall := mkCreateCall {
  cc_msg : Msg;
  cc_title : string;
  cc_description : string;
  cc_tags : list string;
  cc_fileHash : string
}.

Definition create (c : CreateCall) : Tx N :=
  createMetadata (cc_msg c) (cc_title c) (cc_description c) (cc_tags c) (cc_fileHash c).

(** Runs the calls in order; returns the ids of the successful ones, in
    call order, and the final world. *)
Fixpoint create_all (calls : list CreateCall) (w : World) : list N * World :=
  match calls with
  | [] => ([], w)
  | c :: rest =>
      match call (create c) w with
      | (inr id, w') => let (ids, w'') := create_all rest w' in (id :: ids, w'')
      | (inl _, w') => create_all rest w'
      end
  end.

(** ** Statements and values the theorems refer to *)

(** What [createMetadata] leaves in slot [id]: the six arguments, and the
    custom fields the slot already had. *)
Definition created_record (msg : Msg) (t d : string) (tg : list string) (h : string)
    (old : Metadata) : Metadata :=
  mkMetadata t d (msg_sender msg) (block_timestamp msg) tg h (customFields old).

(** The create/read round trip stated for *every* world: the create
    returns the old count and the record can be read back. *)
Definition create_read_round_trip_everywhere : Prop :=
  ∀ (w : World) (msg : Msg) (t d : string) (tg : list string) (h : string),
    ∃ w', createMetadata msg t d tg h w = Returned (metadataCount (storage w)) w'
          ∧ getMetadata (storage w') (metadataCount (storage w))
            = inr (t, d, msg_sender msg, block_timestamp msg, tg, h).

(** ** Sample worlds *)

(** One record, created by address 7 at time 100. *)
Definition one_record : World :=
  mkWorld (mkStorage {[ 0%N := mkMetadata "t" "d" 7%N 100%N ["a"] "h0" ∅ ]} 1%N)
          [MetadataCreated 0%N "t" 7%N "h0"].

(** A world whose counter has reached the largest [uint256]. *)
Definition full_counter : World := mkWorld (mkStorage ∅ uint256_max) [].

(** ** Histories *)

(** The world after the transactions of a history, each sent with its
    own message, oldest first. *)
Fixpoint run (history : list (Msg * Transaction)) (w : World) : World :=
  match history with
  | [] => w
  | (msg, t) :: rest => run rest (execute msg t w)
  end.

(** The ids announced by the [MetadataCreated] events of a log. *)
Definition created_ids (log : list Event) : list N :=
  omap (λ e, match e with
             | MetadataCreated id _ _ _ => Some id
             | _ => None
             end) log.

(** The fields of a record that only [createMetadata] assigns. *)
Definition fixed_fields (r : Metadata)
  : string * string * address * N * list string :=
  (title r, description r, owner r, timestamp r, tags r).

(** No slot at or above the count has been written, and the log
    announces the ids 0, 1, ... below the count, in order. *)
Definition tidy (w : World) : Prop :=
  (∀ j, (metadataCount (storage w) ≤ j)%N → metadataStore (storage w) !! j = None)
  ∧ created_ids (logs w) = N.of_nat <$> seq 0 (N.to_nat (metadataCount (storage w))).

(** The senders of a history. *)
Definition senders (history : list (Msg * Transaction)) : list address :=
  (λ mt, msg_sender mt.1) <$> history.

(** Three transactions on [one_record]: its owner, address 7, creates a
    second record and sets a custom field; address 8 tries to replace
    the hash of record 0. *)
Definition sample_history : list (Msg * Transaction) :=
  [(mkMsg 7%N 210%N, CreateMetadata "t1" "d1" [] "h1");
   (mkMsg 8%N 220%N, UpdateFileHash 0%N "stolen");
   (mkMsg 7%N 230%N, AddCustomField 0%N "k" "v")].

End MetadataStorage.

(* ===================================================================== *)
(** * Part II: the dashboard script [script.js]                           *)
(* ===================================================================== *)

Module Dashboard.

(** ** JavaScript numbers

    A Number is an IEEE 754 binary64 value, which is what Rocq's
    primitive [float] is: [/], [*] and [<?] below are the operators of
    the script, bit for bit. *)

(** A JSON field that should hold a number: missing, [null], or a
    Number. *)
Inductive JsValue :=
| JsUndefined
| JsNull
| JsNumber (x : float).

Definition ToNumber (v : JsValue) : float :=
  match v with
  | JsUndefined => nan
  | JsNull => 0%float
  | JsNumber x => x
  end.

Definition ToBoolean (v : JsValue) : bool :=
  match v with
  | JsNumber x => negb (is_zero x || is_nan x)
  | _ => false
  end.

(** [Math.round]: non-finite and integral values are returned as they
    are; otherwise the integer [floor (x + 1/2)], computed exactly from
    the mantissa and the exponent, with the sign of [x] kept on a zero
    result. A non-integral double is below [2^52] in magnitude, so the
    integer fits [of_uint63]. *)
Definition Math_round (x : float) : float :=
  match Prim2SF x with
  | S754_finite s m e =>
      let d := (2 ^ (- e))%Z in
      if (0 <=? e)%Z then x
      else if (Z.pos m mod d =? 0)%Z then x
      else
        let n := (if s then - Z.pos m else Z.pos m)%Z in
        let r := ((2 * n + d) / (2 * d))%Z in
        if (r =? 0)%Z then (if s then neg_zero else zero)
        else if (r <? 0)%Z then (- of_uint63 (Uint63.of_Z (- r)))%float
        else of_uint63 (Uint63.of_Z r)
  | _ => x
  end.

(** [Math.min] as ECMAScript states it: start from [+∞]; a NaN argument
    makes the result NaN; [-0] is below [+0]. *)
Fixpoint Math_min_from (lowest : float) (numbers : list float) : float :=
  match numbers with
  | [] => lowest
  | number :: rest =>
      if is_nan number then nan
      else
        let lowest :=
          if is_zero lowest && negb (get_sign lowest) && is_zero number && get_sign number
          then number else lowest in
        let lowest := if (number <? lowest)%float then number else lowest in
        Math_min_from lowest rest
  end.

Definition Math_min (numbers : list float) : float := Math_min_from infinity numbers.

(** [Number::toString] where it is plain: NaN, the infinities, zero, and
    integers below [2^53] in magnitude, which print as their decimal
    digits. Other Numbers print through the shortest-round-trip digit
    search, which is not modelled: [None]. *)
Definition NumberToString (x : float) : option string :=
  match Prim2SF x with
  | S754_nan => Some "NaN"
  | S754_zero _ => Some "0"
  | S754_infinity s => Some (if s then "-Infinity" else "Infinity")
  | S754_finite s m e =>
      let d := (2 ^ (- e))%Z in
      let digits (z : Z) :=
        if (z <? 2 ^ 53)%Z then Some ((if s then "-" else "") ++ pretty z) else None in
      if (0 <=? e)%Z then digits (Z.pos m * 2 ^ e)%Z
      else if (Z.pos m mod d =? 0)%Z then digits (Z.pos m / d)%Z
      else None
  end.

(** The template literal [`${x}%`]. *)
Definition percent (x : float) : option string :=
  (λ digits, digits ++ "%") <$> NumberToString x.

(** ** The status object and the Flower panel *)

(** The JSON object of [GET /api/flower/status]. The flags are kept as
    their truth values. [clients_connected] is only printed and
    compared with 1: it is kept as the integer count the backend sends
    ([None]: the field is missing). The two round counters enter a
    division: they are kept as JavaScript values. *)
Record Status := mkStatus {
  connected : bool;
  server_running : bool;
  flower_accessible : bool;
  training_in_progress : bool;
  clients_connected : option Z;
  current_round : JsValue;
  total_rounds : JsValue
}.

(** [`${status.clients_connected}`] *)
Definition count_text (n : option Z) : string :=
  match n with
  | Some n => pretty n
  | None => "undefined"
  end.

(** [status.clients_connected !== 1 ? 's' : ''] *)
Definition plural_suffix (n : option Z) : string :=
  if bool_decide (n = Some 1%Z) then "" else "s".

(** The four variables the if-chain of [updateFlowerStatus] assigns. *)
Record StatusStyle := mkStatusStyle {
  statusText : string;
  statusColor : string;
  statusBgColor : string;
  statusTextColor : string
}.

Definition status_style (status : Status) : StatusStyle :=
  if connected status then
    mkStatusStyle
      ("Connected (" ++ count_text (clients_connected status) ++ " client"
         ++ plural_suffix (clients_connected status) ++ ")")
      "green" "green-100" "green-800"
  else if server_running status then
    mkStatusStyle "Server running but not accessible" "yellow" "yellow-100" "yellow-800"
  else if training_in_progress status then
    mkStatusStyle "Starting up..." "blue" "blue-100" "blue-800"
  else
    mkStatusStyle "Disconnected" "red" "red-100" "red-800".

(** [const progress = Math.min(100, Math.round((status.current_round /
    status.total_rounds) * 100))] *)
Definition progress (status : Status) : float :=
  Math_min [100%float;
            Math_round ((ToNumber (current_round status) / ToNumber (total_rounds status))
                        * 100)%float].

(** The class of the bar, by completion. *)
Definition progress_className (progress : float) : string :=
  if (100 <=? progress)%float then "bg-green-600 h-2.5 rounded-full"
  else if (70 <? progress)%float then "bg-blue-600 h-2.5 rounded-full"
  else if (30 <? progress)%float then "bg-yellow-500 h-2.5 rounded-full"
  else "bg-red-500 h-2.5 rounded-full".

(** The elements [updateFlowerStatus] writes. A text that interpolates
    a Number is an [option string] ([None]: see [NumberToString]). *)
Record FlowerPanel := mkFlowerPanel {
  flowerStatus_dot : string;          (* class of the <span> in #flowerStatus *)
  flowerStatus_label : string;        (* text after the <span> *)
  flowerStatus_className : string;
  has_statusDetails : bool;           (* the page has #statusDetails *)
  statusDetails : string * string * string;   (* Server, Flower, Training *)
  connectedClients : string;
  currentRound : option string;
  totalRounds : option string;
  progressBar_width : option string;
  progressBar_className : string;
  progressText : option string
}.

(** [x || fallback] printed. *)
Definition number_or (v : JsValue) (fallback : string) : option string :=
  if ToBoolean v then NumberToString (ToNumber v) else Some fallback.

Definition badge (bg fg : string) : string :=
  "inline-flex items-center px-2.5 py-0.5 rounded-full text-xs font-medium bg-"
    ++ bg ++ " text-" ++ fg.

(** The [try] block of [updateFlowerStatus] after [response.json()]. *)
Definition render_status (status : Status) (panel : FlowerPanel) : FlowerPanel :=
  let style := status_style status in
  let details :=
    if has_statusDetails panel then
      (if server_running status then "Running" else "Stopped",
       if flower_accessible status then "Accessible" else "Inaccessible",
       if training_in_progress status then "In Progress" else "Idle")
    else statusDetails panel in
  let connectedText :=
    match clients_connected status with
    | Some n => if (n =? 0)%Z then "0" else pretty n
    | None => "0"
    end in
  let bar :=
    if (0 <? ToNumber (total_rounds status))%float then
      let progress := progress status in
      (percent progress, progress_className progress, percent progress)
    else (Some "0%", progressBar_className panel, Some "0%") in
  mkFlowerPanel
    ("w-2 h-2 mr-1 rounded-full bg-" ++ statusColor style ++ "-500")
    (statusText style)
    (badge (statusBgColor style) (statusTextColor style))
    (has_statusDetails panel)
    details
    connectedText
    (number_or (current_round status) "-")
    (number_or (total_rounds status) "-")
    bar.1.1 bar.1.2 bar.2.

(** What a [fetch] followed by [response.json()] comes to. *)
Inductive Fetched (A : Type) :=
| Rejected (message : string)                (* fetch or json() rejects with an Error *)
| NotOk (status : Z) (statusText : string)   (* response.ok is false *)
| Json (data : A).
Arguments Rejected {A} message.
Arguments NotOk {A} status statusText.
Arguments Json {A} data.

(** The [catch] block of [updateFlowerStatus]. *)
Definition render_status_error (message : string) (panel : FlowerPanel) : FlowerPanel :=
  mkFlowerPanel
    "w-2 h-2 mr-1 rounded-full bg-red-500"
    ("Error: " ++ message)
    (badge "red-100" "red-800")
    (has_statusDetails panel) (statusDetails panel) (connectedClients panel)
    (currentRound panel) (totalRounds panel)
    (progressBar_width panel) (progressBar_className panel) (progressText panel).

Definition updateFlowerStatus (response : Fetched Status) (panel : FlowerPanel) : FlowerPanel :=
  match response with
  | Json status => render_status status panel
  | NotOk _ _ => render_status_error "Failed to fetch Flower status" panel
  | Rejected message => render_status_error message panel
  end.

(** ** Ledger entries and audit blocks *)

(** An element of the array of [GET /api/ledger]. [timestamp] stands for
    the time value of [new Date(entry.timestamp)]: milliseconds since
    the epoch, [None] for an Invalid Date (whose time value is NaN). *)
Record LedgerEntry := mkLedgerEntry {
  round_num : Z;
  timestamp : option Z;
  clients : list string;
  accuracy : JsValue;
  loss : JsValue
}.

(** An element of the array of [GET /api/blockchain]; a field the
    object does not have is [None]. [block_timestamp] is a time value,
    as in [LedgerEntry]. *)
Record Block := mkBlock {
  block_round_num : option Z;
  block_timestamp : option Z;
  data_hash : option string;
  previous_hash : option string
}.

(** ** [Array.prototype.sort] *)

(** [new Date(b.timestamp) - new Date(a.timestamp)]; [None] is NaN. Time
    values are integers, so the sign of the double difference is the
    sign of the exact one. *)
Definition newest_first (ta tb : option Z) : option Z :=
  match ta, tb with
  | Some a, Some b => Some (b - a)%Z
  | _, _ => None
  end.

Section ArraySort.
Context {A : Type} (comparefn : A → A → option Z).

(** [SortCompare]: a NaN from the comparator counts as [+0]. *)
Definition SortCompare (x y : A) : Z := default 0%Z (comparefn x y).

(** [sort] is stable, and with a consistent comparator its result is
    the one stable ordering of the array; insertion computes it. (With an
    inconsistent comparator ECMAScript leaves the order to the engine.) *)
Fixpoint sort_insert (x : A) (sorted : list A) : list A :=
  match sorted with
  | [] => [x]
  | y :: rest =>
      if (SortCompare x y <=? 0)%Z then x :: y :: rest
      else y :: sort_insert x rest
  end.

Definition Array_sort (items : list A) : list A := foldr sort_insert [] items.

End ArraySort.

(** ** The two tables *)

(** [tbody.innerHTML]: the placeholder row, or one [<tr>] per element. *)
Inductive TableBody (R : Type) :=
| NoData (message : string)
| Rows (rows : list R).
Arguments NoData {R} message.
Arguments Rows {R} rows.

(** A ledger row is identified with the entry it prints: its cells are
    formatted by [formatTimestamp] (which reads the clock and the
    locale) and [toFixed], which the claims do not look at. *)
Definition updateLedgerTable (ledgerData : list LedgerEntry) : TableBody LedgerEntry :=
  match ledgerData with
  | [] => NoData "No training data available"
  | _ :: _ =>
      let sortedData :=
        Array_sort (λ a b, newest_first (timestamp a) (timestamp b)) ledgerData in
      Rows sortedData
  end.

(** A [<td>] with a [title] attribute. *)
Record Cell := mkCell {
  cell_title : string;
  cell_text : string
}.

Record BlockRow := mkBlockRow {
  row_block : Block;              (* the timestamp cell prints this block's timestamp *)
  round_num_cell : string;
  data_hash_cell : Cell;
  previous_hash_cell : Cell
}.

Definition GENESIS : string :=
  "0000000000000000000000000000000000000000000000000000000000000000".

(** [s ? … : …] on a string field: missing, [null] and [''] are falsy. *)
Definition truthy (s : option string) : bool :=
  match s with
  | Some s => negb (bool_decide (s = ""))
  | None => false
  end.

(** [block.data_hash], [block.previous_hash] where the script reads the
    string: [hash_of None] is never printed. *)
Definition hash_of (field : option string) : string := default "" field.

(** One [<tr>] of the audit-log table. *)
Definition block_row (block : Block) : BlockRow :=
  mkBlockRow block
    (match block_round_num block with
     | Some n => pretty n
     | None => "N/A"
     end)
    (mkCell (hash_of (data_hash block))
       (if truthy (data_hash block)
        then String.substring 0 16 (hash_of (data_hash block)) ++ "..."
        else "N/A"))
    (mkCell (hash_of (previous_hash block))
       (if truthy (previous_hash block)
        then (if bool_decide (hash_of (previous_hash block) = GENESIS)
              then "Genesis"
              else String.substring 0 16 (hash_of (previous_hash block)) ++ "...")
        else "N/A")).

Definition updateBlockchainTable (blockchainData : list Block) : TableBody BlockRow :=
  match blockchainData with
  | [] => NoData "No blockchain data available"
  | _ :: _ =>
      let sortedData :=
        Array_sort (λ a b, newest_first (block_timestamp a) (block_timestamp b))
                   blockchainData in
      Rows (block_row <$> sortedData)
  end.

(** ** The charts *)

Record Chart := mkChart {
  chart_labels : list string;
  chart_data : list float
}.

(** [v || 0] *)
Definition number_or_zero (v : JsValue) : float :=
  if ToBoolean v then ToNumber v else 0%float.

Definition round_labels (ledgerData : list LedgerEntry) : list string :=
  imap (λ index _, "Round " ++ pretty (Z.of_nat index + 1)%Z) ledgerData.

Definition updateCharts (ledgerData : list LedgerEntry) (charts : Chart * Chart)
  : Chart * Chart :=
  match ledgerData with
  | [] => charts
  | _ :: _ =>
      let labels := round_labels ledgerData in
      let accuracyData := (λ entry, number_or_zero (accuracy entry)) <$> ledgerData in
      let lossData := (λ entry, number_or_zero (loss entry)) <$> ledgerData in
      (mkChart labels accuracyData, mkChart labels lossData)
  end.

(** ** The page *)

(** The error banner: [#errorMessage] and [#errorText]. The script tests
    that they exist before it touches them. *)
Record Banner := mkBanner {
  has_errorMessage : bool;
  has_errorText : bool;
  errorMessage_classList : gset string;
  errorText_textContent : string
}.

(** The training controls: the two buttons, [#status] and [#statusText],
    and the number of pending [setTimeout] callbacks that hide [#status]. *)
Record Controls := mkControls {
  startButton_disabled : bool;
  stopButton_disabled : bool;
  stopButton_classList : gset string;
  statusDiv_classList : gset string;
  statusText_textContent : string;
  hide_status_timers : nat
}.

(** What the script can change in a poll cycle, and the URLs it has
    fetched so far (oldest first). The elements the script dereferences
    without a test ([#ledgerBody], [#blockchainBody], the charts, the
    buttons) are taken to exist: the HTML page is not part of the
    sources at hand. *)
Record Page := mkPage {
  loading : bool;
  banner : Banner;
  charts : Chart * Chart;                 (* accuracyChart, lossChart *)
  ledgerBody : TableBody LedgerEntry;
  blockchainBody : TableBody BlockRow;
  controls : Controls;
  flowerPanel : FlowerPanel;
  requests : list string
}.

Definition setLoading (isLoading : bool) (p : Page) : Page :=
  mkPage isLoading (banner p) (charts p) (ledgerBody p) (blockchainBody p)
         (controls p) (flowerPanel p) (requests p).

Definition set_banner (b : Banner) (p : Page) : Page :=
  mkPage (loading p) b (charts p) (ledgerBody p) (blockchainBody p)
         (controls p) (flowerPanel p) (requests p).

Definition set_charts (c : Chart * Chart) (p : Page) : Page :=
  mkPage (loading p) (banner p) c (ledgerBody p) (blockchainBody p)
         (controls p) (flowerPanel p) (requests p).

Definition set_ledgerBody (t : TableBody LedgerEntry) (p : Page) : Page :=
  mkPage (loading p) (banner p) (charts p) t (blockchainBody p)
         (controls p) (flowerPanel p) (requests p).

Definition set_blockchainBody (t : TableBody BlockRow) (p : Page) : Page :=
  mkPage (loading p) (banner p) (charts p) (ledgerBody p) t
         (controls p) (flowerPanel p) (requests p).

Definition set_controls (c : Controls) (p : Page) : Page :=
  mkPage (loading p) (banner p) (charts p) (ledgerBody p) (blockchainBody p)
         c (flowerPanel p) (requests p).

Definition set_flowerPanel (f : FlowerPanel) (p : Page) : Page :=
  mkPage (loading p) (banner p) (charts p) (ledgerBody p) (blockchainBody p)
         (controls p) f (requests p).

Definition add_request (url : string) (p : Page) : Page :=
  mkPage (loading p) (banner p) (charts p) (ledgerBody p) (blockchainBody p)
         (controls p) (flowerPanel p) (requests p ++ [url]).

Definition showError (message : string) (p : Page) : Page :=
  let b := banner p in
  if has_errorMessage b && has_errorText b then
    set_banner (mkBanner (has_errorMessage b) (has_errorText b)
                         (errorMessage_classList b ∖ {["hidden"]}) message) p
  else p.

Definition hideError (p : Page) : Page :=
  let b := banner p in
  if has_errorMessage b then
    set_banner (mkBanner (has_errorMessage b) (has_errorText b)
                         (errorMessage_classList b ∪ {["hidden"]})
                         (errorText_textContent b)) p
  else p.

Definition resetTrainingUI (p : Page) : Page :=
  let c := controls p in
  set_controls
    (mkControls false false
       (stopButton_classList c ∪ {["hidden"]})
       (statusDiv_classList c ∖ {["bg-blue-100"; "text-blue-700"]}
          ∪ {["bg-green-100"; "text-green-700"]})
       "Training completed successfully"
       (S (hide_status_timers c))) p.

(** The branch of the status block taken while training runs. *)
Definition show_training_in_progress (rounds : nat) (p : Page) : Page :=
  let c := controls p in
  set_controls
    (mkControls true (stopButton_disabled c)
       (stopButton_classList c ∖ {["hidden"]})
       (statusDiv_classList c ∖ {["hidden"]})
       ("Training in progress (Round "
          ++ pretty (if decide (rounds = 0) then 1 else rounds) ++ ")")
       (hide_status_timers c)) p.

(** ** The poll cycle

    [fetchAndUpdateData] runs over the page and its two locals; a thrown
    [Error] is carried by its message. *)
Record Frame := mkFrame {
  page : Page;
  ledgerData : list LedgerEntry;
  blockchainData : list Block
}.

Definition Js (A : Type) : Type := Frame → (string + A) * Frame.

Definition ret {A} (a : A) : Js A := λ f, (inr a, f).

Definition bind {A B} (m : Js A) (k : A → Js B) : Js B :=
  λ f, match m f with
       | (inr a, f') => k a f'
       | (inl message, f') => (inl message, f')
       end.

Notation "'let*' x ':=' m 'in' k" := (bind m (λ x, k))
  (at level 10, x name, m at level 100, k at level 200).
Notation "m ';;' k" := (bind m (λ _, k))
  (at level 100, k at level 200, right associativity).

Definition throw {A} (message : string) : Js A := λ f, (inl message, f).

(** [try { m } catch (e) { handler(e.message) }] *)
Definition try_catch {A} (m : Js A) (handler : string → Js A) : Js A :=
  λ f, match m f with
       | (inr a, f') => (inr a, f')
       | (inl message, f') => handler message f'
       end.

Definition on_page (g : Page → Page) : Js unit :=
  λ f, (inr tt, mkFrame (g (page f)) (ledgerData f) (blockchainData f)).

Definition get_ledgerData : Js (list LedgerEntry) := λ f, (inr (ledgerData f), f).
Definition get_blockchainData : Js (list Block) := λ f, (inr (blockchainData f), f).

Definition set_ledgerData (data : list LedgerEntry) : Js unit :=
  λ f, (inr tt, mkFrame (page f) data (blockchainData f)).
Definition set_blockchainData (data : list Block) : Js unit :=
  λ f, (inr tt, mkFrame (page f) (ledgerData f) data).

(** What the server answers to each request of one cycle. *)
Record Network := mkNetwork {
  flower_status_response : Fetched Status;
  ledger_response : Fetched (list LedgerEntry);
  blockchain_response : Fetched (list Block);
  status_response : Fetched Status
}.

(** [fetch(url)], the [response.ok] test and [response.json()] of the
    two critical requests. [what] is the noun of the message. *)
Definition fetch_json {A} (url what : string) (response : Fetched A) : Js A :=
  on_page (add_request url) ;;
  match response with
  | Rejected message => throw message
  | NotOk status statusText =>
      throw ("Failed to fetch " ++ what ++ ": " ++ pretty status ++ " " ++ statusText)
  | Json data => ret data
  end.

Definition when (c : bool) (m : Js unit) : Js unit := if c then m else ret tt.

Definition non_empty {A} (l : list A) : bool := negb (bool_decide (l = [])).

Definition fetchAndUpdateData (net : Network) (page0 : Page) : Page :=
  let body : Js unit :=
    on_page (setLoading true) ;;
    on_page hideError ;;
    (* updateFlowerStatus() is started and not awaited: its request
       leaves now; it writes the Flower panel only *)
    on_page (add_request "/api/flower/status") ;;
    on_page (λ p, set_flowerPanel
                    (updateFlowerStatus (flower_status_response net) (flowerPanel p)) p) ;;
    try_catch
      (let* data := fetch_json "/api/ledger" "ledger" (ledger_response net) in
       set_ledgerData data)
      (λ ledgerError, throw ("Failed to load training data: " ++ ledgerError)) ;;
    try_catch
      (let* data := fetch_json "/api/blockchain" "blockchain data" (blockchain_response net) in
       set_blockchainData data)
      (λ blockchainError, throw ("Failed to load blockchain data: " ++ blockchainError)) ;;
    try_catch
      (let* ledgerData := get_ledgerData in
       let* blockchainData := get_blockchainData in
       when (non_empty ledgerData)
            (on_page (λ p, set_charts (updateCharts ledgerData (charts p)) p)) ;;
       on_page (set_ledgerBody (updateLedgerTable ledgerData)) ;;
       on_page (set_blockchainBody (updateBlockchainTable blockchainData)) ;;
       on_page (setLoading false))
      (λ updateError, throw ("Failed to update UI: " ++ updateError)) ;;
    try_catch
      (on_page (add_request "/api/status") ;;
       match status_response net with
       | Json statusData =>
           let* ledgerData := get_ledgerData in
           if training_in_progress statusData
           then on_page (show_training_in_progress (length ledgerData))
           else when (non_empty ledgerData) (on_page resetTrainingUI)
       | NotOk _ _ => ret tt
       | Rejected message => throw message
       end)
      (λ statusError, ret tt) ;;
    on_page hideError in
  let handler (message : string) : Js unit :=
    on_page (showError ("Error: " ++ message)) ;;
    on_page (setLoading false) ;;
    try_catch
      (let* ledgerData := get_ledgerData in
       let* blockchainData := get_blockchainData in
       when (non_empty ledgerData)
            (on_page (set_ledgerBody (updateLedgerTable ledgerData))) ;;
       when (non_empty blockchainData)
            (on_page (set_blockchainBody (updateBlockchainTable blockchainData))))
      (λ e, ret tt) in
  page (try_catch body handler (mkFrame page0 [] [])).2.

(** ** Statements and values the theorems refer to *)


(** The comparator of the two tables, over the field that holds the
    time value; and the order it is meant to produce. *)
Definition by_time {A} (key : A → option Z) (a b : A) : option Z :=
  newest_first (key a) (key b).

(** The rows of a table body (none under the placeholder). *)
Definition rows_of {R} (t : TableBody R) : list R :=
  match t with
  | NoData _ => []
  | Rows rows => rows
  end.

(** Rounds 1, 2, 3 logged at 10:00, 10:05 and 10:02 (milliseconds after
    midnight). *)
Definition round1 : LedgerEntry := mkLedgerEntry 1 (Some 36000000%Z) ["c1"] JsNull JsNull.
Definition round2 : LedgerEntry := mkLedgerEntry 2 (Some 36300000%Z) ["c1"] JsNull JsNull.
Definition round3 : LedgerEntry := mkLedgerEntry 3 (Some 36120000%Z) ["c1"] JsNull JsNull.

Definition genesis_block : Block :=
  mkBlock (Some 1%Z) (Some 36000000%Z) (Some "ab12cd34ef56ab12cd34ef56ab12cd34") (Some GENESIS).
Definition second_block : Block :=
  mkBlock (Some 2%Z) (Some 36300000%Z) (Some "ffee00112233445566778899aabbccdd")
          (Some "ab12cd34ef56ab12cd34ef56ab12cd34").


(** A page as it is before the first cycle, with its banner elements. *)
Definition blank_panel : FlowerPanel :=
  mkFlowerPanel "" "" "" true ("", "", "") "" None None None "" None.
Definition blank_page : Page :=
  mkPage false (mkBanner true true {["hidden"]} "") (mkChart [] [], mkChart [] [])
         (NoData "") (NoData "")
         (mkControls false false {["hidden"]} {["hidden"]} "" 0) blank_panel [].

(** A status with the given round counters. *)
Definition rounds_status (current_round total_rounds : JsValue) : Status :=
  mkStatus true true true true (Some 2%Z) current_round total_rounds.


(** The progress rule in the specification's words, on integer
    counters: [100 × current_round / total_rounds] rounded to the
    nearest integer (halves up, as [Math.round] does) and clamped to
    [0, 100]; 0 when [total_rounds] is not positive. *)
Definition claimed_percentage (current_round total_rounds : Z) : Z :=
  if (0 <? total_rounds)%Z
  then 0 `max` (100 `min` ((200 * current_round + total_rounds) `div` (2 * total_rounds)))
  else 0.




(** The order of the ledger table in the specification's words, for
    every non-empty array: of two rows that both carry a date, the one
    shown above is not the older one. *)
Definition claimed_table_order : Prop :=
  ∀ ledgerData : list LedgerEntry, ledgerData ≠ [] →
  ∀ (i j : nat) (above below : LedgerEntry) (ta tb : Z),
    (i < j)%nat →
    rows_of (updateLedgerTable ledgerData) !! i = Some above →
    rows_of (updateLedgerTable ledgerData) !! j = Some below →
    timestamp above = Some ta → timestamp below = Some tb →
    (tb ≤ ta)%Z.

(** Three entries as a data source may return them: the second one has
    a timestamp that [new Date] cannot read. *)
Definition dated_1000 : LedgerEntry := mkLedgerEntry 1 (Some 1000%Z) ["c1"] JsNull JsNull.
Definition undated : LedgerEntry := mkLedgerEntry 2 None ["c1"] JsNull JsNull.
Definition dated_2000 : LedgerEntry := mkLedgerEntry 3 (Some 2000%Z) ["c1"] JsNull JsNull.

(** A request that did not deliver its JSON, and the message of the
    [Error] it throws inside its [try]. *)
Definition failed {A} (response : Fetched A) : Prop :=
  match response with
  | Json _ => False
  | _ => True
  end.

Definition failure_message {A} (what : string) (response : Fetched A) : string :=
  match response with
  | Rejected message => message
  | NotOk status statusText =>
      "Failed to fetch " ++ what ++ ": " ++ pretty status ++ " " ++ statusText
  | Json _ => ""
  end.

Definition banner_shown (p : Page) : Prop :=
  "hidden" ∉ errorMessage_classList (banner p).

(** The URLs fetched by the cycle that leads from [before] to [after]. *)
Definition requests_since (before after : Page) : list string :=
  drop (length (requests before)) (requests after).

(** Failure isolation in the specification's words: when the ledger
    request fails and the audit-log request would succeed, the audit log
    is still fetched and shown, and the banner appears. *)
Definition claimed_ledger_failure_isolation : Prop :=
  ∀ (net : Network) (page0 : Page) (audit : list Block),
    failed (ledger_response net) →
    blockchain_response net = Json audit →
    has_errorMessage (banner page0) = true → has_errorText (banner page0) = true →
    "/api/blockchain" ∈ requests_since page0 (fetchAndUpdateData net page0)
    ∧ blockchainBody (fetchAndUpdateData net page0) = updateBlockchainTable audit
    ∧ banner_shown (fetchAndUpdateData net page0).

(** A cycle in which the ledger request is rejected and the audit log
    would have been served. *)
Definition ledger_down : Network :=
  mkNetwork (Rejected "Failed to fetch") (Rejected "Failed to fetch")
            (Json [genesis_block; second_block]) (Rejected "Failed to fetch").

(** A cycle in which only the audit-log request fails. *)
Definition audit_down : Network :=
  mkNetwork (Rejected "Failed to fetch") (Json [round1; round2; round3])
            (NotOk 500 "Internal Server Error") (Rejected "Failed to fetch").

(** Whether a request delivered its JSON. *)
Definition delivered {A} (response : Fetched A) : bool :=
  match response with
  | Json _ => true
  | _ => false
  end.

(** Every request of a poll cycle is answered. *)
Definition all_up (ledger : list LedgerEntry) (audit : list Block) (status : Status)
  : Network :=
  mkNetwork (Json status) (Json ledger) (Json audit) (Json status).

(** A page on which an earlier cycle has left its error banner. *)
Definition page_with_banner : Page :=
  mkPage true (mkBanner true true ∅ "Error: Failed to load training data: Failed to fetch")
         (mkChart [] [], mkChart [] []) (NoData "") (NoData "")
         (mkControls false false {["hidden"]} {["hidden"]} "" 0) blank_panel [].

Definition idle_status : Status :=
  mkStatus true true true false (Some 2%Z) (JsNumber 3) (JsNumber 3).
Definition training_status : Status :=
  mkStatus true true true true (Some 2%Z) (JsNumber 1) (JsNumber 3).


(** ** The two buttons *)

(** The value of an input field: a JavaScript string, as its UTF-16
    code units. *)
Definition JsString : Type := list N.

(** [WhiteSpace] and [LineTerminator] of ECMAScript: TAB, LF, VT, FF, CR,
    SP, NBSP, U+1680, U+2000 to U+200A, LS, PS, U+202F, U+205F, U+3000
    and the byte order mark. *)
Definition StrWhiteSpaceChar (c : N) : bool :=
  bool_decide (c ∈ [9; 10; 11; 12; 13; 32; 160; 5760; 8232; 8233; 8239; 8287; 12288; 65279]%N)
  || ((8192 <=? c)%N && (c <=? 8202)%N).

(** The value of a code unit as a digit of the radix: [0-9], [a-z],
    [A-Z]. *)
Definition digit_of (radix : N) (c : N) : option N :=
  let value :=
    if ((48 <=? c) && (c <=? 57))%N then Some (c - 48)%N
    else if ((97 <=? c) && (c <=? 122))%N then Some (c - 87)%N
    else if ((65 <=? c) && (c <=? 90))%N then Some (c - 55)%N
    else None in
  match value with
  | Some d => if (d <? radix)%N then Some d else None
  | None => None
  end.

Fixpoint skip_whitespace (s : JsString) : JsString :=
  match s with
  | c :: rest => if StrWhiteSpaceChar c then skip_whitespace rest else s
  | [] => []
  end.

(** The digits at the front of [s], most significant first. *)
Fixpoint leading_digits (radix : N) (s : JsString) : list N :=
  match s with
  | c :: rest =>
      match digit_of radix c with
      | Some d => d :: leading_digits radix rest
      | None => []
      end
  | [] => []
  end.

Definition digits_value (radix : N) (digits : list N) : N :=
  foldl (λ acc d, acc * radix + d)%N 0%N digits.

(** The steps of [parseInt(string)] without a radix, after the leading
    white space is gone: the sign ([-] is 45, [+] is 43), then an
    optional [0x] or [0X], which makes the radix 16. *)
Definition sign_of (trimmed : JsString) : Z :=
  match trimmed with
  | c :: _ => if (c =? 45)%N then (-1)%Z else 1%Z
  | [] => 1%Z
  end.

Definition strip_sign (trimmed : JsString) : JsString :=
  match trimmed with
  | c :: rest => if ((c =? 43) || (c =? 45))%N then rest else trimmed
  | [] => trimmed
  end.

Definition strip_prefix (unsigned : JsString) : N * JsString :=
  match unsigned with
  | zero :: x :: rest =>
      if ((zero =? 48) && ((x =? 120) || (x =? 88)))%N
      then (16%N, rest) else (10%N, unsigned)
  | _ => (10%N, unsigned)
  end.

(** [parseInt(string)]: the longest run of digits after white space,
    sign and prefix; NaN ([None]) when there is no digit. The result is
    the integer the digits denote; the Number is that integer when it
    is below [2^53]. *)
Definition parseInt (string : JsString) : option Z :=
  let trimmed := skip_whitespace string in
  let '(radix, body) := strip_prefix (strip_sign trimmed) in
  match leading_digits radix body with
  | [] => None
  | digits => Some (sign_of trimmed * Z.of_N (digits_value radix digits))%Z
  end.

(** [isNaN(n) || n < 1] *)
Definition below_minimum (n : option Z) : bool :=
  match n with
  | None => true
  | Some n => (n <? 1)%Z
  end.

(** What a click on the start button leaves: the page, the [alert] it
    raised and the body of the POST it sent, if any. *)
Record Started := mkStarted {
  started_page : Page;
  started_alert : option string;
  started_body : option (Z * Z)          (* num_rounds, num_clients *)
}.

(** The [catch] blocks of the two click handlers. *)
Definition show_start_error (message : string) (p : Page) : Page :=
  let c := controls p in
  set_controls
    (mkControls false (stopButton_disabled c)
       (stopButton_classList c ∪ {["hidden"]})
       (statusDiv_classList c ∖ {["bg-blue-100"; "text-blue-700"]}
          ∪ {["bg-red-100"; "text-red-700"]})
       ("Error: " ++ message)
       (hide_status_timers c)) p.

Definition show_stop_error (message : string) (p : Page) : Page :=
  let c := controls p in
  set_controls
    (mkControls (startButton_disabled c) false
       (stopButton_classList c)
       (statusDiv_classList c ∖ {["bg-blue-100"; "text-blue-700"]}
          ∪ {["bg-red-100"; "text-red-700"]})
       ("Error: " ++ message)
       (hide_status_timers c)) p.

(** [startTraining], given the values of the two input fields and what
    [POST /api/train] comes to if it is sent. *)
Definition startTraining (numRoundsInput numClientsInput : JsString)
    (response : Fetched unit) (p : Page) : Started :=
  let numRounds := parseInt numRoundsInput in
  let numClients := parseInt numClientsInput in
  if below_minimum numRounds then
    mkStarted p (Some "Please enter a valid number of rounds (minimum 1)") None
  else if below_minimum numClients then
    mkStarted p (Some "Please enter a valid number of clients (minimum 1)") None
  else
    let rounds := default 0%Z numRounds in
    let clients := default 0%Z numClients in
    let c := controls p in
    let p1 :=
      set_controls
        (mkControls true (stopButton_disabled c)
           (stopButton_classList c ∖ {["hidden"]})
           (statusDiv_classList c ∖ {["hidden"; "bg-red-100"; "text-red-700"]}
              ∪ {["bg-blue-100"; "text-blue-700"]})
           "Starting training..."
           (hide_status_timers c)) p in
    let p2 := add_request "/api/train" p1 in
    let p3 :=
      match response with
      | Json _ =>
          let c2 := controls p2 in
          set_controls
            (mkControls (startButton_disabled c2) (stopButton_disabled c2)
               (stopButton_classList c2) (statusDiv_classList c2)
               ("Training in progress (" ++ pretty rounds ++ " rounds, "
                  ++ pretty clients ++ " clients)")
               (hide_status_timers c2)) p2
      | NotOk _ _ => show_start_error "Failed to start training" p2
      | Rejected message => show_start_error message p2
      end in
    mkStarted p3 None (Some (rounds, clients)).

(** [stopTraining], given what [POST /api/stop] comes to. *)
Definition stopTraining (response : Fetched unit) (p : Page) : Page :=
  let c := controls p in
  let p1 :=
    set_controls
      (mkControls (startButton_disabled c) true (stopButton_classList c)
         (statusDiv_classList c) "Stopping training..." (hide_status_timers c)) p in
  let p2 := add_request "/api/stop" p1 in
  match response with
  | Json _ => resetTrainingUI p2
  | NotOk _ _ => show_stop_error "Failed to stop training" p2
  | Rejected message => show_stop_error message p2
  end.

(** ** [formatTimestamp] *)

(** The text after the date: how long ago, from the whole seconds
    between the date and now. *)
Definition relativeTime (diffInSeconds : Z) : string :=
  if (diffInSeconds <? 5)%Z then "Just now"
  else if (diffInSeconds <? 60)%Z then pretty diffInSeconds ++ " seconds ago"
  else if (diffInSeconds <? 3600)%Z then
    let minutes := (diffInSeconds `div` 60)%Z in
    pretty minutes ++ " minute" ++ (if (1 <? minutes)%Z then "s" else "") ++ " ago"
  else if (diffInSeconds <? 86400)%Z then
    let hours := (diffInSeconds `div` 3600)%Z in
    pretty hours ++ " hour" ++ (if (1 <? hours)%Z then "s" else "") ++ " ago"
  else
    let days := (diffInSeconds `div` 86400)%Z in
    pretty days ++ " day" ++ (if (1 <? days)%Z then "s" else "") ++ " ago".

(** The argument of [formatTimestamp] as the function looks at it: a
    falsy value (missing, [null], [''], [0], NaN), or a value with the
    time value of [new Date(timestamp)] ([None]: Invalid Date). *)
Inductive RawTimestamp :=
| Falsy
| Truthy (time_value : option Z).

(** The cell: one of the two fixed texts, or the date (printed by
    [toLocaleString], which depends on the locale and is kept as the
    time value) above the relative time. *)
Inductive TimestampCell :=
| PlainText (text : string)
| DateAndAge (date : Z) (relativeTime : string).

(** [now] is the time value of [new Date()]. Time values are integers
    of at most 8.64e15 in magnitude; with a clock that reads a
    present-day time (about 1.7e12) the difference stays below 2^53, so
    the subtraction is exact and the rounding of the division by 1000
    (under 0.00098) cannot reach the next whole second (at least 0.001
    away): [Math.floor] gives the integer quotient. *)
Definition formatTimestamp (now : Z) (timestamp : RawTimestamp) : TimestampCell :=
  match timestamp with
  | Falsy => PlainText "N/A"
  | Truthy None => PlainText "Invalid date"
  | Truthy (Some date) =>
      let diffInSeconds := ((now - date) `div` 1000)%Z in
      DateAndAge date (relativeTime diffInSeconds)
  end.

(** The code units of an ASCII text. *)
Definition code_units (text : string) : JsString :=
  (λ a, N_of_ascii a) <$> String.list_ascii_of_string text.




(** The message of the [Error] a failed POST ends in. *)
Definition post_failure (fallback : string) (response : Fetched unit) : string :=
  match response with
  | Rejected message => message
  | _ => fallback
  end.

End Dashboard.

(* ===================================================================== *)
(** * Part II, continued: the contract's front end [App.js]               *)
(* ===================================================================== *)

Module App.
Import (hints) MetadataStorage.

(** ** [calculateFileHash]: the digest as text *)

(** The digits of [Number.prototype.toString(16)] are lower case. *)
Definition hex_digit (d : N) : ascii :=
  default "0"%char (String.get (N.to_nat d) "0123456789abcdef").

(** [b.toString(16)] for an element of a [Uint8Array]: one digit below
    16, two from there to 255. *)
Definition toString16 (b : Byte.byte) : string :=
  let n := Byte.to_N b in
  if (n <? 16)%N then String (hex_digit n) ""
  else String (hex_digit (n / 16)) (String (hex_digit (n mod 16)) "").

(** [s.padStart(targetLength, fill)] with a filler of one character. *)
Definition padStart (targetLength : nat) (fill : ascii) (s : string) : string :=
  String.string_of_list_ascii (replicate (targetLength - String.length s) fill) ++ s.

(** [hashArray.map(b => b.toString(16).padStart(2, '0')).join('')]; the
    bytes are those of the SHA-256 digest, computed by the browser. *)
Definition hashHex (hashArray : list Byte.byte) : string :=
  foldr String.append "" ((λ b, padStart 2 "0" (toString16 b)) <$> hashArray).

(** ** The tags: typed as one text, shown as one text *)

(** [text.split(separator)] with a separator of one code unit: the
    pieces between its occurrences; a text without the separator, the
    empty text too, is the only piece. *)
Fixpoint split (separator : N) (text : Dashboard.JsString) : list Dashboard.JsString :=
  match text with
  | [] => [[]]
  | c :: rest =>
      if (c =? separator)%N then [] :: split separator rest
      else match split separator rest with
           | piece :: pieces => (c :: piece) :: pieces
           | [] => [[c]]
           end
  end.

(** [text.trim()] removes the white space and the line terminators at
    both ends. *)
Definition trim (text : Dashboard.JsString) : Dashboard.JsString :=
  reverse (Dashboard.skip_whitespace (reverse (Dashboard.skip_whitespace text))).

(** [tags.split(',').map(tag => tag.trim())]: the comma is code unit 44. *)
Definition tagArray (tags : Dashboard.JsString) : list Dashboard.JsString :=
  trim <$> split 44 tags.

(** [parts.join(separator)] *)
Fixpoint Array_join (separator : Dashboard.JsString) (parts : list Dashboard.JsString)
  : Dashboard.JsString :=
  match parts with
  | [] => []
  | [part] => part
  | part :: rest => (part ++ separator ++ Array_join separator rest)%list
  end.

(** [item.tags.join(', ')], the text of the tags on a card. *)
Definition tags_text (tags : list Dashboard.JsString) : Dashboard.JsString :=
  Array_join [44; 32]%N tags.

(** ** [loadMetadataList] *)

(** One element of [metadataItems]. [timestamp] is the block time in
    seconds the contract returned; the card prints it through
    [toLocaleString], which depends on the locale. *)
Record Item := mkItem {
  id : N;
  title : string;
  description : string;
  owner : MetadataStorage.address;
  timestamp : N;
  tags : list string;
  fileHash : string
}.

(** The state the function writes to. *)
Record View := mkView {
  metadataList : list Item;
  loading : bool;
  error : string
}.

(** What an [await] of a contract call can throw: the revert of the
    call, or the refusal of an argument before anything is sent. *)
Inductive Thrown :=
| CallException (f : MetadataStorage.Failure)
| InvalidArgument.

(** [contract.getMetadata(i)] with a Number [i]: the library takes a
    Number for a [uint256] only when it is a safe integer, one below
    [2^53]. *)
Definition contract_getMetadata (s : MetadataStorage.Storage) (i : N)
  : Thrown + (string * string * MetadataStorage.address * N * list string * string) :=
  if (i <? 2 ^ 53)%N then
    match MetadataStorage.getMetadata s i with
    | inr metadata => inr metadata
    | inl f => inl (CallException f)
    end
  else inl InvalidArgument.

(** [i++] on a Number that holds an integer: exact below [2^53], where
    [i + 1] rounds back to [i]. *)
Definition increment (i : N) : N := if (i <? 2 ^ 53)%N then (i + 1)%N else i.

Definition item_of (i : N)
    (metadata : string * string * MetadataStorage.address * N * list string * string) : Item :=
  let '(title, description, owner, timestamp, tags, fileHash) := metadata in
  mkItem i title description owner timestamp tags fileHash.

(** [for (let i = 0; i < count; i++) { ... metadataItems.push(...) }]
    from the value [i] on; [None] when the turns allowed by [fuel] do
    not reach the end of the loop. *)
Fixpoint load_loop (fuel : nat) (s : MetadataStorage.Storage) (count i : N)
    (metadataItems : list Item) : option (Thrown + list Item) :=
  match fuel with
  | O => None
  | S fuel =>
      if (i <? count)%N then
        match contract_getMetadata s i with
        | inr metadata =>
            load_loop fuel s count (increment i) (metadataItems ++ [item_of i metadata])%list
        | inl thrown => Some (inl thrown)
        end
      else Some (inr metadataItems)
  end.

(** The state variable [contract] as the closure that runs sees it:
    [null] ([None]) in the closures of the first render, the object made
    by [new ethers.Contract(...)] in those of the renders that follow
    [setContract]. The effect of [useEffect(..., [])] runs once, in the
    first render: the [loadMetadataList] that [initializeContract] and
    the [MetadataCreated] listener call is the one of that render, whose
    [contract] is [null]; the one [handleCreateMetadata] and
    [handleAddCustomField] call is their own render's, and they return
    before the call unless their [contract] is set. *)
Inductive Contract := MetadataContract.

(** [loadMetadataList]: nothing happens without a contract
    ([if (!contract) return;]). With one, whose storage [s] does not
    change while the list is read, the list is replaced when every call
    has returned, and kept, with the error set, when one has thrown;
    [loading] is false at the end either way. *)
Definition loadMetadataList (fuel : nat) (contract : option Contract)
    (s : MetadataStorage.Storage) (v : View) : option View :=
  match contract with
  | None => Some v
  | Some _ =>
      match load_loop fuel s (MetadataStorage.getMetadataCount s) 0 [] with
      | Some (inr metadataItems) => Some (mkView metadataItems false (error v))
      | Some (inl _) => Some (mkView (metadataList v) false "Failed to load metadata list")
      | None => None
      end
  end.

(** ** Statements and values the theorems refer to *)

(** A tag as the form leaves it: no comma inside, no white space at
    either end. *)
Definition well_formed_tag (tag : Dashboard.JsString) : Prop :=
  (44%N ∉ tag)
  ∧ (∀ c, head tag = Some c → Dashboard.StrWhiteSpaceChar c = false)
  ∧ (∀ c, last tag = Some c → Dashboard.StrWhiteSpaceChar c = false).




End App.

(* ===================================================================== *)
(** * Part III: theorems about [MetadataStorage]                          *)
(* ===================================================================== *)

Module MetadataStorageSpec.
Import MetadataStorage.

(** ** Unfolding the bodies *)

Lemma insert_total_eq (m : gmap N Metadata) i x : <[i := x]> m !!! i = x.
Proof. by rewrite lookup_total_insert_eq. Qed.

Lemma insert_total_ne (m : gmap N Metadata) i j x :
  i ≠ j → <[i := x]> m !!! j = m !!! j.
Proof. intros. by rewrite lookup_total_insert_ne. Qed.

Lemma createMetadata_returns msg t d tg h w :
  (metadataCount (storage w) < uint256_max)%N →
  createMetadata msg t d tg h w =
    Returned (metadataCount (storage w))
      (mkWorld
         (mkStorage
            (<[metadataCount (storage w) :=
                 created_record msg t d tg h
                   (metadataStore (storage w) !!! metadataCount (storage w))]>
               (metadataStore (storage w)))
            (metadataCount (storage w) + 1)%N)
         (logs w ++ [MetadataCreated (metadataCount (storage w)) t (msg_sender msg) h])).
Proof.
  intros Hlt. apply N.ltb_lt in Hlt.
  unfold createMetadata, bind, post_increment_metadataCount.
  rewrite Hlt. cbn.
  rewrite !insert_total_eq, !insert_insert_eq. reflexivity.
Qed.

Lemma createMetadata_overflows msg t d tg h w :
  (uint256_max ≤ metadataCount (storage w))%N →
  createMetadata msg t d tg h w = Reverted arithmetic_overflow w.
Proof.
  intros Hge. apply N.ltb_ge in Hge.
  unfold createMetadata, bind, post_increment_metadataCount.
  by rewrite Hge.
Qed.

Lemma updateFileHash_cases msg id h w :
  updateFileHash msg id h w =
    if (id <? metadataCount (storage w))%N then
      if bool_decide (msg_sender msg = owner (metadataStore (storage w) !!! id)) then
        Returned tt
          (mkWorld
             (mkStorage
                (<[id := set_fileHash h (metadataStore (storage w) !!! id)]>
                   (metadataStore (storage w)))
                (metadataCount (storage w)))
             (logs w ++ [FileHashUpdated id h]))
      else Reverted Unauthorized w
    else Reverted NotFound w.
Proof.
  unfold updateFileHash, bind, read, require. cbn.
  destruct (id <? _)%N; [|reflexivity].
  destruct (bool_decide _); reflexivity.
Qed.

Lemma addCustomField_cases msg id k v w :
  addCustomField msg id k v w =
    if (id <? metadataCount (storage w))%N then
      if bool_decide (msg_sender msg = owner (metadataStore (storage w) !!! id)) then
        Returned tt
          (mkWorld
             (mkStorage
                (<[id := set_customField k v (metadataStore (storage w) !!! id)]>
                   (metadataStore (storage w)))
                (metadataCount (storage w)))
             (logs w ++ [CustomFieldAdded id k v]))
      else Reverted Unauthorized w
    else Reverted NotFound w.
Proof.
  unfold addCustomField, bind, read, require. cbn.
  destruct (id <? _)%N; [|reflexivity].
  destruct (bool_decide _); reflexivity.
Qed.

(** ** The counter *)

Lemma call_create_count c w :
  match call (create c) w with
  | (inr id, w') =>
      id = metadataCount (storage w) ∧
      metadataCount (storage w') = (metadataCount (storage w) + 1)%N
  | (inl _, w') => w' = w
  end.
Proof.
  unfold call, create.
  destruct (N.lt_ge_cases (metadataCount (storage w)) uint256_max) as [Hlt|Hge].
  - rewrite createMetadata_returns by done. by cbn.
  - by rewrite createMetadata_overflows.
Qed.

(** From any world, the successful creates of a run return the
    consecutive ids that start at the count, and the count advances by
    their number. *)
Lemma create_all_from calls : ∀ w,
  (create_all calls w).1 =
    (λ i, (metadataCount (storage w) + N.of_nat i)%N) <$> seq 0 (length (create_all calls w).1)
  ∧ metadataCount (storage (create_all calls w).2) =
    (metadataCount (storage w) + N.of_nat (length (create_all calls w).1))%N.
Proof.
  induction calls as [|c rest IH]; intros w; cbn [create_all].
  - cbn. split; [done | lia].
  - pose proof (call_create_count c w) as Hc.
    destruct (call (create c) w) as [[f|id] w1].
    + subst w1. apply IH.
    + destruct Hc as [-> Hcount].
      specialize (IH w1). destruct (create_all rest w1) as [ids w2].
      cbn [fst snd length] in *. destruct IH as [Hids Hfinal]. split.
      * cbn [seq fmap list_fmap]. f_equal; [f_equal; lia|].
        rewrite Hids at 1. rewrite <- seq_shift, <- list_fmap_compose.
        apply list_fmap_ext. intros _ i _. cbn. lia.
      * rewrite Hfinal, Hcount. lia.
Qed.

Lemma consecutive_increasing (n : nat) : ∀ k,
  StronglySorted N.lt ((λ i, N.of_nat i) <$> seq k n).
Proof.
  induction n as [|n IH]; intros k; cbn.
  - constructor.
  - constructor; [apply IH|].
    apply List.Forall_forall. intros x Hx.
    apply list_elem_of_In in Hx. apply list_elem_of_fmap in Hx as (i & -> & Hi).
    apply list_elem_of_In in Hi. apply in_seq in Hi. lia.
Qed.

Lemma execute_count_monotone msg t w :
  (metadataCount (storage w) ≤ metadataCount (storage (execute msg t w)))%N.
Proof.
  destruct t as [t d tg h | i h | i k v]; cbn [execute]; unfold call.
  - destruct (N.lt_ge_cases (metadataCount (storage w)) uint256_max) as [Hlt|Hge].
    + rewrite createMetadata_returns by done. cbn. lia.
    + by rewrite createMetadata_overflows.
  - rewrite updateFileHash_cases.
    destruct (i <? _)%N; [destruct (bool_decide _)|]; cbn; lia.
  - rewrite addCustomField_cases.
    destruct (i <? _)%N; [destruct (bool_decide _)|]; cbn; lia.
Qed.

(** C2. For every sequence of [createMetadata] calls run from the initial
    contract state: [getMetadataCount()] equals the number of successful
    creates; the ids returned are 0, 1, 2, ... in call order, hence
    pairwise distinct and strictly increasing; and no transaction
    (create, hash update, custom field; successful or reverted) ever
    lowers [getMetadataCount()]. *)
Theorem create_sequence_count_and_ids (calls : list CreateCall) :
  let ids := (create_all calls initial).1 in
  let final := (create_all calls initial).2 in
  getMetadataCount (storage final) = N.of_nat (length ids)
  ∧ ids = N.of_nat <$> seq 0 (length ids)
  ∧ NoDup ids
  ∧ StronglySorted N.lt ids
  ∧ (∀ msg t w,
       (getMetadataCount (storage w) ≤ getMetadataCount (storage (execute msg t w)))%N).
Proof.
  intros ids final.
  destruct (create_all_from calls initial) as [Hids Hcount].
  fold ids in Hids, Hcount. fold final in Hcount. cbn in Hids, Hcount.
  assert (Hsorted : StronglySorted N.lt ids).
  { rewrite Hids. apply consecutive_increasing. }
  repeat split.
  - exact Hcount.
  - exact Hids.
  - clear -Hsorted. induction Hsorted as [|x l _ IH Hx]; constructor; [|done].
    intros Hin. rewrite List.Forall_forall in Hx.
    apply list_elem_of_In in Hin. apply Hx in Hin. lia.
  - exact Hsorted.
  - intros. apply execute_count_monotone.
Qed.

(** ** Guards *)

(** C3. In every world, for every id below the count and every caller
    other than the stored owner of record [id], [updateFileHash] and
    [addCustomField] revert with [Unauthorized], and they do so before
    any write: the world the body stops in is the world it started in
    (storage, every field of every record, the count and the log). *)
Theorem non_owner_write_is_unauthorized
    (w : World) (msg : Msg) (id : N) (newHash key value : string) :
  (id < metadataCount (storage w))%N →
  msg_sender msg ≠ owner (metadataStore (storage w) !!! id) →
  updateFileHash msg id newHash w = Reverted Unauthorized w
  ∧ addCustomField msg id key value w = Reverted Unauthorized w
  ∧ call (updateFileHash msg id newHash) w = (inl Unauthorized, w)
  ∧ call (addCustomField msg id key value) w = (inl Unauthorized, w).
Proof.
  intros Hlt Hne. apply N.ltb_lt in Hlt.
  unfold call. rewrite updateFileHash_cases, addCustomField_cases, Hlt.
  rewrite bool_decide_eq_false_2 by done. done.
Qed.

Lemma non_owner_write_is_unauthorized_witness :
  updateFileHash (mkMsg 8%N 200%N) 0%N "h1" one_record = Reverted Unauthorized one_record
  ∧ addCustomField (mkMsg 8%N 200%N) 0%N "k" "v" one_record = Reverted Unauthorized one_record
  ∧ call (updateFileHash (mkMsg 8%N 200%N) 0%N "h1") one_record = (inl Unauthorized, one_record)
  ∧ call (addCustomField (mkMsg 8%N 200%N) 0%N "k" "v") one_record
    = (inl Unauthorized, one_record).
Proof.
  apply (non_owner_write_is_unauthorized one_record (mkMsg 8%N 200%N) 0%N "h1" "k" "v").
  - vm_compute. reflexivity.
  - vm_compute. discriminate.
Defined.

(** C4. In every storage, for every id at or above the count,
    [getMetadata], [getCustomField], [updateFileHash] and
    [addCustomField] fail with [NotFound]; the two writes stop in the
    world they started in. *)
Theorem out_of_range_id_is_not_found
    (w : World) (msg : Msg) (id : N) (newHash key value : string) :
  (metadataCount (storage w) ≤ id)%N →
  getMetadata (storage w) id = inl NotFound
  ∧ getCustomField (storage w) id key = inl NotFound
  ∧ updateFileHash msg id newHash w = Reverted NotFound w
  ∧ addCustomField msg id key value w = Reverted NotFound w
  ∧ call (updateFileHash msg id newHash) w = (inl NotFound, w)
  ∧ call (addCustomField msg id key value) w = (inl NotFound, w).
Proof.
  intros Hge. apply N.ltb_ge in Hge.
  unfold call, getMetadata, getCustomField.
  rewrite updateFileHash_cases, addCustomField_cases, Hge. done.
Qed.

Lemma out_of_range_id_is_not_found_witness :
  getMetadata (storage one_record) 1%N = inl NotFound
  ∧ getCustomField (storage one_record) 1%N "k" = inl NotFound
  ∧ updateFileHash (mkMsg 7%N 200%N) 1%N "h1" one_record = Reverted NotFound one_record
  ∧ addCustomField (mkMsg 7%N 200%N) 1%N "k" "v" one_record = Reverted NotFound one_record
  ∧ call (updateFileHash (mkMsg 7%N 200%N) 1%N "h1") one_record = (inl NotFound, one_record)
  ∧ call (addCustomField (mkMsg 7%N 200%N) 1%N "k" "v") one_record = (inl NotFound, one_record).
Proof.
  apply (out_of_range_id_is_not_found one_record (mkMsg 7%N 200%N) 1%N "h1" "k" "v").
  vm_compute. discriminate.
Defined.

(** ** Create, then read *)

(** C9, counterexample. When the counter holds [2^256 - 1] the checked
    [metadataCount++] reverts with [Panic(0x11)]: the call returns no id
    and nothing is stored. *)
Lemma create_at_full_counter_reverts :
  createMetadata (mkMsg 7%N 100%N) "t" "d" ["a"] "h0" full_counter
    = Reverted arithmetic_overflow full_counter
  ∧ ¬ create_read_round_trip_everywhere.
Proof.
  assert (Hrev : createMetadata (mkMsg 7%N 100%N) "t" "d" ["a"] "h0" full_counter
                 = Reverted arithmetic_overflow full_counter).
  { apply createMetadata_overflows. cbn. reflexivity. }
  split; [exact Hrev|].
  intros Hall.
  destruct (Hall full_counter (mkMsg 7%N 100%N) "t" "d" ["a"] "h0") as (w' & Hret & _).
  rewrite Hrev in Hret. discriminate.
Qed.

(** C9, amended. In every world whose counter is below [2^256 - 1], for
    every caller, [createMetadata] returns the count it found (and
    advances it by one), and [getMetadata] of that id then succeeds with
    exactly the title, description, caller, block timestamp, tags and
    file hash of the call. *)
Theorem create_then_read_round_trip
    (w : World) (msg : Msg) (t d : string) (tg : list string) (h : string) :
  (metadataCount (storage w) < uint256_max)%N →
  ∃ w', createMetadata msg t d tg h w = Returned (metadataCount (storage w)) w'
        ∧ call (createMetadata msg t d tg h) w = (inr (metadataCount (storage w)), w')
        ∧ getMetadataCount (storage w') = (metadataCount (storage w) + 1)%N
        ∧ getMetadata (storage w') (metadataCount (storage w))
          = inr (t, d, msg_sender msg, block_timestamp msg, tg, h).
Proof.
  intros Hlt. eexists. unfold call.
  rewrite createMetadata_returns by done.
  split; [reflexivity|]. split; [reflexivity|]. split; [reflexivity|].
  unfold getMetadata. cbn [storage metadataCount metadataStore].
  assert (Hid : (metadataCount (storage w) <? metadataCount (storage w) + 1)%N = true)
    by (apply N.ltb_lt; lia).
  rewrite Hid, insert_total_eq. reflexivity.
Qed.

Lemma create_then_read_round_trip_witness :
  ∃ w', createMetadata (mkMsg 9%N 300%N) "t2" "d2" ["x"; "y"] "h2" one_record = Returned 1%N w'
        ∧ call (createMetadata (mkMsg 9%N 300%N) "t2" "d2" ["x"; "y"] "h2") one_record
          = (inr 1%N, w')
        ∧ getMetadataCount (storage w') = 2%N
        ∧ getMetadata (storage w') 1%N = inr ("t2", "d2", 9%N, 300%N, ["x"; "y"], "h2").
Proof.
  apply (create_then_read_round_trip one_record (mkMsg 9%N 300%N) "t2" "d2" ["x"; "y"] "h2").
  vm_compute. reflexivity.
Defined.

(** ** Frame of the two writes *)

(** C10. In every world, for every id below the count whose stored owner
    is the caller: [updateFileHash] returns and changes only the
    [fileHash] of record [id]; [addCustomField] returns and changes only
    the entry at [key] of the custom fields of record [id]. In both
    cases the title, description, owner, timestamp and tags of the
    record, its other custom fields, every other record and the count
    are as before. *)
Theorem owner_write_frame
    (w : World) (msg : Msg) (id : N) (newHash key value : string) :
  (id < metadataCount (storage w))%N →
  msg_sender msg = owner (metadataStore (storage w) !!! id) →
  let old := metadataStore (storage w) !!! id in
  (∃ w1, updateFileHash msg id newHash w = Returned tt w1
     ∧ metadataCount (storage w1) = metadataCount (storage w)
     ∧ (∀ j, j ≠ id → metadataStore (storage w1) !!! j = metadataStore (storage w) !!! j)
     ∧ metadataStore (storage w1) !!! id
       = mkMetadata (title old) (description old) (owner old) (timestamp old)
                    (tags old) newHash (customFields old))
  ∧ (∃ w2, addCustomField msg id key value w = Returned tt w2
     ∧ metadataCount (storage w2) = metadataCount (storage w)
     ∧ (∀ j, j ≠ id → metadataStore (storage w2) !!! j = metadataStore (storage w) !!! j)
     ∧ (let new := metadataStore (storage w2) !!! id in
        title new = title old ∧ description new = description old
        ∧ owner new = owner old ∧ timestamp new = timestamp old
        ∧ tags new = tags old ∧ fileHash new = fileHash old
        ∧ customFields new !! key = Some value
        ∧ (∀ k, k ≠ key → customFields new !! k = customFields old !! k))
     ∧ getCustomField (storage w2) id key = inr value).
Proof.
  intros Hlt Hown old. pose proof Hlt as Hltb. apply N.ltb_lt in Hltb.
  rewrite updateFileHash_cases, addCustomField_cases, Hltb.
  rewrite bool_decide_eq_true_2 by done.
  split; eexists; (split; [reflexivity|]); cbn [storage metadataCount metadataStore].
  - split; [reflexivity|]. split.
    + intros j Hj. by apply insert_total_ne.
    + by rewrite insert_total_eq.
  - split; [reflexivity|]. split.
    + intros j Hj. by apply insert_total_ne.
    + unfold getCustomField. cbn [metadataCount metadataStore].
      rewrite Hltb, insert_total_eq. cbn.
      repeat split; try reflexivity.
      * apply lookup_insert_eq.
      * intros k Hk. by apply lookup_insert_ne.
      * by rewrite lookup_total_insert_eq.
Qed.

Lemma owner_write_frame_witness :
  let old := metadataStore (storage one_record) !!! 0%N in
  (∃ w1, updateFileHash (mkMsg 7%N 200%N) 0%N "h1" one_record = Returned tt w1
     ∧ metadataCount (storage w1) = metadataCount (storage one_record)
     ∧ (∀ j, j ≠ 0%N →
          metadataStore (storage w1) !!! j = metadataStore (storage one_record) !!! j)
     ∧ metadataStore (storage w1) !!! 0%N
       = mkMetadata (title old) (description old) (owner old) (timestamp old)
                    (tags old) "h1" (customFields old))
  ∧ (∃ w2, addCustomField (mkMsg 7%N 200%N) 0%N "k" "v" one_record = Returned tt w2
     ∧ metadataCount (storage w2) = metadataCount (storage one_record)
     ∧ (∀ j, j ≠ 0%N →
          metadataStore (storage w2) !!! j = metadataStore (storage one_record) !!! j)
     ∧ (let new := metadataStore (storage w2) !!! 0%N in
        title new = title old ∧ description new = description old
        ∧ owner new = owner old ∧ timestamp new = timestamp old
        ∧ tags new = tags old ∧ fileHash new = fileHash old
        ∧ customFields new !! "k" = Some "v"
        ∧ (∀ k, k ≠ "k" → customFields new !! k = customFields old !! k))
     ∧ getCustomField (storage w2) 0%N "k" = inr "v").
Proof.
  apply (owner_write_frame one_record (mkMsg 7%N 200%N) 0%N "h1" "k" "v").
  - vm_compute. reflexivity.
  - vm_compute. reflexivity.
Defined.

(** ** Transactions, one at a time *)

Lemma execute_create msg t d tg h w :
  execute msg (CreateMetadata t d tg h) w =
    if (metadataCount (storage w) <? uint256_max)%N then
      mkWorld
        (mkStorage
           (<[metadataCount (storage w) :=
                created_record msg t d tg h
                  (metadataStore (storage w) !!! metadataCount (storage w))]>
              (metadataStore (storage w)))
           (metadataCount (storage w) + 1)%N)
        (logs w ++ [MetadataCreated (metadataCount (storage w)) t (msg_sender msg) h])
    else w.
Proof.
  cbn [execute]. unfold call.
  destruct (N.ltb_spec (metadataCount (storage w)) uint256_max) as [Hlt|Hge].
  - by rewrite createMetadata_returns.
  - by rewrite createMetadata_overflows.
Qed.

Lemma execute_update msg id h w :
  execute msg (UpdateFileHash id h) w =
    if (id <? metadataCount (storage w))%N
       && bool_decide (msg_sender msg = owner (metadataStore (storage w) !!! id))
    then mkWorld
           (mkStorage
              (<[id := set_fileHash h (metadataStore (storage w) !!! id)]>
                 (metadataStore (storage w)))
              (metadataCount (storage w)))
           (logs w ++ [FileHashUpdated id h])
    else w.
Proof.
  cbn [execute]. unfold call. rewrite updateFileHash_cases.
  destruct (id <? _)%N; [destruct (bool_decide _)|]; reflexivity.
Qed.

Lemma execute_add msg id k v w :
  execute msg (AddCustomField id k v) w =
    if (id <? metadataCount (storage w))%N
       && bool_decide (msg_sender msg = owner (metadataStore (storage w) !!! id))
    then mkWorld
           (mkStorage
              (<[id := set_customField k v (metadataStore (storage w) !!! id)]>
                 (metadataStore (storage w)))
              (metadataCount (storage w)))
           (logs w ++ [CustomFieldAdded id k v])
    else w.
Proof.
  cbn [execute]. unfold call. rewrite addCustomField_cases.
  destruct (id <? _)%N; [destruct (bool_decide _)|]; reflexivity.
Qed.

(** What one transaction does to an existing record: nothing at all
    when it comes from somebody else, and nothing to the fixed fields
    in any case. *)
Lemma execute_record msg t w id :
  (id < metadataCount (storage w))%N →
  fixed_fields (metadataStore (storage (execute msg t w)) !!! id)
    = fixed_fields (metadataStore (storage w) !!! id)
  ∧ (msg_sender msg ≠ owner (metadataStore (storage w) !!! id) →
     metadataStore (storage (execute msg t w)) !!! id = metadataStore (storage w) !!! id).
Proof.
  intros Hid.
  destruct t as [t d tg h | i h | i k v].
  - rewrite execute_create. destruct (_ <? _)%N; [|done]. cbn.
    rewrite insert_total_ne by lia. done.
  - rewrite execute_update.
    destruct (i <? _)%N; [|done]. cbn [andb].
    destruct (bool_decide_reflect
                (msg_sender msg = owner (metadataStore (storage w) !!! i))) as [Hown|Hown];
      [|done].
    cbn. destruct (decide (i = id)) as [->|Hne].
    + rewrite insert_total_eq. done.
    + rewrite insert_total_ne by done. done.
  - rewrite execute_add.
    destruct (i <? _)%N; [|done]. cbn [andb].
    destruct (bool_decide_reflect
                (msg_sender msg = owner (metadataStore (storage w) !!! i))) as [Hown|Hown];
      [|done].
    cbn. destruct (decide (i = id)) as [->|Hne].
    + rewrite insert_total_eq. done.
    + rewrite insert_total_ne by done. done.
Qed.

Lemma run_count_monotone history : ∀ w,
  (metadataCount (storage w) ≤ metadataCount (storage (run history w)))%N.
Proof.
  induction history as [|[msg t] rest IH]; intros w; cbn [run]; [lia|].
  etransitivity; [apply execute_count_monotone | apply IH].
Qed.

(** X1. Whatever transactions are mined next, whoever sends them, the
    title, description, owner, timestamp and tags of an existing record
    stay as they are, and the record stays in range. *)
Theorem record_identity_is_immutable
    (history : list (Msg * Transaction)) (w : World) (id : N) :
  (id < metadataCount (storage w))%N →
  (id < metadataCount (storage (run history w)))%N
  ∧ fixed_fields (metadataStore (storage (run history w)) !!! id)
    = fixed_fields (metadataStore (storage w) !!! id)
  ∧ (∃ hash, getMetadata (storage (run history w)) id
             = inr (title (metadataStore (storage w) !!! id),
                    description (metadataStore (storage w) !!! id),
                    owner (metadataStore (storage w) !!! id),
                    timestamp (metadataStore (storage w) !!! id),
                    tags (metadataStore (storage w) !!! id), hash)).
Proof.
  revert w. induction history as [|[msg t] rest IH]; intros w Hid; cbn [run].
  - split; [done|]. split; [done|].
    exists (fileHash (metadataStore (storage w) !!! id)).
    unfold getMetadata. apply N.ltb_lt in Hid. by rewrite Hid.
  - assert (Hid' : (id < metadataCount (storage (execute msg t w)))%N).
    { eapply N.lt_le_trans; [exact Hid | apply execute_count_monotone]. }
    destruct (IH _ Hid') as (Hrange & Hfixed & hash & Hget).
    destruct (execute_record msg t w id Hid) as [Hstep _].
    split; [done|]. split; [by rewrite Hfixed|].
    exists hash. rewrite Hget. unfold fixed_fields in Hstep.
    injection Hstep as H1 H2 H3 H4 H5. by rewrite H1, H2, H3, H4, H5.
Qed.

Lemma record_identity_is_immutable_witness :
  (0 < metadataCount (storage (run sample_history one_record)))%N
  ∧ fixed_fields (metadataStore (storage (run sample_history one_record)) !!! 0%N)
    = ("t", "d", 7%N, 100%N, ["a"])
  ∧ (∃ hash, getMetadata (storage (run sample_history one_record)) 0%N
             = inr ("t", "d", 7%N, 100%N, ["a"], hash)).
Proof.
  apply (record_identity_is_immutable sample_history one_record 0%N).
  vm_compute. reflexivity.
Defined.

(** X2. A record does not change, in any field, under a history none of
    whose transactions is sent by its owner. *)
Theorem stranger_cannot_change_record
    (history : list (Msg * Transaction)) (w : World) (id : N) :
  (id < metadataCount (storage w))%N →
  owner (metadataStore (storage w) !!! id) ∉ senders history →
  metadataStore (storage (run history w)) !!! id = metadataStore (storage w) !!! id.
Proof.
  revert w. induction history as [|[msg t] rest IH]; intros w Hid Hnot; cbn [run]; [done|].
  unfold senders in Hnot. cbn in Hnot. apply not_elem_of_cons in Hnot as [Hmsg Hrest].
  destruct (execute_record msg t w id Hid) as [_ Hstep].
  specialize (Hstep (not_eq_sym Hmsg)).
  rewrite IH.
  - exact Hstep.
  - eapply N.lt_le_trans; [exact Hid | apply execute_count_monotone].
  - by rewrite Hstep.
Qed.

Lemma stranger_cannot_change_record_witness :
  metadataStore
    (storage (run [(mkMsg 8%N 220%N, UpdateFileHash 0%N "stolen");
                   (mkMsg 9%N 230%N, AddCustomField 0%N "k" "v");
                   (mkMsg 8%N 240%N, CreateMetadata "t1" "d1" [] "h1")] one_record)) !!! 0%N
  = metadataStore (storage one_record) !!! 0%N.
Proof.
  apply (stranger_cannot_change_record
           [(mkMsg 8%N 220%N, UpdateFileHash 0%N "stolen");
            (mkMsg 9%N 230%N, AddCustomField 0%N "k" "v");
            (mkMsg 8%N 240%N, CreateMetadata "t1" "d1" [] "h1")] one_record 0%N).
  - vm_compute. reflexivity.
  - vm_compute. intros Hin.
    repeat (apply elem_of_cons in Hin as [Hin|Hin]; [discriminate|]).
    by apply elem_of_nil in Hin.
Defined.

(** ** What holds after every history from the initial state *)

Lemma created_ids_app log1 log2 :
  created_ids (log1 ++ log2) = (created_ids log1 ++ created_ids log2)%list.
Proof. unfold created_ids. apply omap_app. Qed.

Lemma execute_tidy msg t w : tidy w → tidy (execute msg t w).
Proof.
  intros [Hfree Hlog].
  destruct t as [t d tg h | i h | i k v].
  - rewrite execute_create.
    destruct (N.ltb_spec (metadataCount (storage w)) uint256_max) as [Hlt|Hge]; [|done].
    split; cbn [storage metadataStore metadataCount logs].
    + intros j Hj. rewrite lookup_insert_ne by lia. apply Hfree. lia.
    + rewrite created_ids_app, Hlog. cbn.
      replace (N.to_nat (metadataCount (storage w) + 1))
        with (N.to_nat (metadataCount (storage w)) + 1)%nat by lia.
      rewrite seq_app, fmap_app. cbn. by rewrite N2Nat.id.
  - rewrite execute_update.
    destruct (N.ltb_spec i (metadataCount (storage w))) as [Hlt|Hge]; [|done].
    cbn [andb]. destruct (bool_decide _); [|done].
    split; cbn [storage metadataStore metadataCount logs].
    + intros j Hj. rewrite lookup_insert_ne by lia. by apply Hfree.
    + rewrite created_ids_app, Hlog. cbn. by rewrite app_nil_r.
  - rewrite execute_add.
    destruct (N.ltb_spec i (metadataCount (storage w))) as [Hlt|Hge]; [|done].
    cbn [andb]. destruct (bool_decide _); [|done].
    split; cbn [storage metadataStore metadataCount logs].
    + intros j Hj. rewrite lookup_insert_ne by lia. by apply Hfree.
    + rewrite created_ids_app, Hlog. cbn. by rewrite app_nil_r.
Qed.

Lemma run_tidy history : ∀ w, tidy w → tidy (run history w).
Proof.
  induction history as [|[msg t] rest IH]; intros w Hw; cbn [run]; [done|].
  by apply IH, execute_tidy.
Qed.

Lemma initial_tidy : tidy initial.
Proof. split; [intros j _; apply lookup_empty | reflexivity]. Qed.

(** X3. After any history from the initial state, a record that is
    created starts without custom fields: [getCustomField] of the new
    id succeeds with the empty string for every key, and the slot held
    nothing before. *)
Theorem new_record_has_no_custom_fields
    (history : list (Msg * Transaction)) (msg : Msg)
    (t d : string) (tg : list string) (h key : string) :
  (metadataCount (storage (run history initial)) < uint256_max)%N →
  metadataStore (storage (run history initial))
    !! metadataCount (storage (run history initial)) = None
  ∧ getCustomField
      (storage (execute msg (CreateMetadata t d tg h) (run history initial)))
      (metadataCount (storage (run history initial))) key
    = inr ""
  ∧ getCustomField (storage (run history initial))
      (metadataCount (storage (run history initial))) key
    = inl NotFound.
Proof.
  intros Hlt.
  destruct (run_tidy history initial initial_tidy) as [Hfree _].
  set (w := run history initial) in *.
  assert (Hnone : metadataStore (storage w) !! metadataCount (storage w) = None)
    by (apply Hfree; lia).
  split; [exact Hnone|]. split.
  - rewrite execute_create. apply N.ltb_lt in Hlt. rewrite Hlt.
    unfold getCustomField. cbn [storage metadataStore metadataCount].
    assert (Hid : (metadataCount (storage w) <? metadataCount (storage w) + 1)%N = true)
      by (apply N.ltb_lt; lia).
    rewrite Hid, insert_total_eq. cbn.
    rewrite (lookup_total_alt (metadataStore (storage w))), Hnone. reflexivity.
  - unfold getCustomField. by rewrite N.ltb_irrefl.
Qed.

Lemma new_record_has_no_custom_fields_witness :
  getCustomField
    (storage (execute (mkMsg 9%N 300%N) (CreateMetadata "t" "d" [] "h")
                (run [(mkMsg 7%N 100%N, CreateMetadata "a" "b" ["c"] "h0");
                      (mkMsg 7%N 110%N, AddCustomField 0%N "k" "v")] initial)))
    1%N "k"
  = inr "".
Proof.
  apply (new_record_has_no_custom_fields
           [(mkMsg 7%N 100%N, CreateMetadata "a" "b" ["c"] "h0");
            (mkMsg 7%N 110%N, AddCustomField 0%N "k" "v")]
           (mkMsg 9%N 300%N) "t" "d" [] "h" "k").
  vm_compute. reflexivity.
Defined.

(** X4. The event log is append-only and grows by at most one event
    per transaction; after any history from the initial state its
    [MetadataCreated] events announce exactly the ids 0, 1, ...,
    count - 1, in this order. *)
Theorem event_log_tracks_creates (history : list (Msg * Transaction)) :
  created_ids (logs (run history initial))
    = N.of_nat <$> seq 0 (N.to_nat (getMetadataCount (storage (run history initial))))
  ∧ (∀ msg t w,
       logs (execute msg t w) = logs w
       ∨ ∃ e : Event, logs (execute msg t w) = (logs w ++ [e])%list).
Proof.
  split; [apply (run_tidy history initial initial_tidy)|].
  intros msg t w. destruct t as [t d tg h | i h | i k v].
  - rewrite execute_create. destruct (_ <? _)%N; [right; by eexists | by left].
  - rewrite execute_update. destruct (_ && _); [right; by eexists | by left].
  - rewrite execute_add. destruct (_ && _); [right; by eexists | by left].
Qed.

(** ** How the writes compose *)

(** X5. When the owner replaces the file hash twice, the storage is the
    one the second replacement alone would leave: the last hash wins,
    and [getMetadata] returns it. *)
Theorem last_file_hash_wins
    (w : World) (msg1 msg2 : Msg) (id : N) (hash1 hash2 : string) :
  (id < metadataCount (storage w))%N →
  msg_sender msg1 = owner (metadataStore (storage w) !!! id) →
  msg_sender msg2 = owner (metadataStore (storage w) !!! id) →
  storage (run [(msg1, UpdateFileHash id hash1); (msg2, UpdateFileHash id hash2)] w)
    = storage (run [(msg2, UpdateFileHash id hash2)] w)
  ∧ ∃ t d o ts tg,
      getMetadata
        (storage (run [(msg1, UpdateFileHash id hash1); (msg2, UpdateFileHash id hash2)] w))
        id
      = inr (t, d, o, ts, tg, hash2).
Proof.
  intros Hid Hown1 Hown2. pose proof Hid as Hlt. apply N.ltb_lt in Hlt.
  cbn [run]. rewrite !execute_update.
  rewrite Hlt, !bool_decide_eq_true_2 by done. cbn [andb storage metadataCount metadataStore].
  rewrite Hlt, insert_total_eq. cbn [owner set_fileHash].
  rewrite bool_decide_eq_true_2 by done. cbn [andb storage metadataCount metadataStore].
  rewrite insert_insert_eq. split; [reflexivity|].
  unfold getMetadata. cbn [metadataCount metadataStore]. rewrite Hlt, insert_total_eq.
  by repeat eexists.
Qed.

Lemma last_file_hash_wins_witness :
  storage (run [(mkMsg 7%N 200%N, UpdateFileHash 0%N "h1");
                (mkMsg 7%N 210%N, UpdateFileHash 0%N "h2")] one_record)
    = storage (run [(mkMsg 7%N 210%N, UpdateFileHash 0%N "h2")] one_record)
  ∧ ∃ t d o ts tg,
      getMetadata
        (storage (run [(mkMsg 7%N 200%N, UpdateFileHash 0%N "h1");
                       (mkMsg 7%N 210%N, UpdateFileHash 0%N "h2")] one_record))
        0%N
      = inr (t, d, o, ts, tg, "h2").
Proof.
  apply (last_file_hash_wins one_record (mkMsg 7%N 200%N) (mkMsg 7%N 210%N) 0%N "h1" "h2").
  - vm_compute. reflexivity.
  - vm_compute. reflexivity.
  - vm_compute. reflexivity.
Defined.

(** X6. Custom fields are upserted key by key: setting one key twice
    leaves the storage of the second write alone, and writes to two
    different keys leave the same storage in either order, with both
    values readable. *)
Theorem custom_fields_upsert
    (w : World) (msg : Msg) (id : N) (key1 key2 value1 value2 : string) :
  (id < metadataCount (storage w))%N →
  msg_sender msg = owner (metadataStore (storage w) !!! id) →
  storage (run [(msg, AddCustomField id key1 value1);
                (msg, AddCustomField id key1 value2)] w)
    = storage (run [(msg, AddCustomField id key1 value2)] w)
  ∧ (key1 ≠ key2 →
     storage (run [(msg, AddCustomField id key1 value1);
                   (msg, AddCustomField id key2 value2)] w)
       = storage (run [(msg, AddCustomField id key2 value2);
                       (msg, AddCustomField id key1 value1)] w)
     ∧ getCustomField
         (storage (run [(msg, AddCustomField id key1 value1);
                        (msg, AddCustomField id key2 value2)] w)) id key1
       = inr value1
     ∧ getCustomField
         (storage (run [(msg, AddCustomField id key1 value1);
                        (msg, AddCustomField id key2 value2)] w)) id key2
       = inr value2).
Proof.
  intros Hid Hown. pose proof Hid as Hlt. apply N.ltb_lt in Hlt.
  assert (Hstep : ∀ k1 v1 k2 v2,
    storage (run [(msg, AddCustomField id k1 v1); (msg, AddCustomField id k2 v2)] w)
    = mkStorage
        (<[id := set_customField k2 v2
                   (set_customField k1 v1 (metadataStore (storage w) !!! id))]>
           (metadataStore (storage w)))
        (metadataCount (storage w))).
  { intros k1 v1 k2 v2. cbn [run]. rewrite !execute_add.
    rewrite Hlt, bool_decide_eq_true_2 by done.
    cbn [andb storage metadataCount metadataStore].
    rewrite Hlt, insert_total_eq. cbn [owner set_customField].
    rewrite bool_decide_eq_true_2 by done.
    cbn [andb storage metadataCount metadataStore].
    by rewrite insert_insert_eq. }
  split.
  - rewrite Hstep. cbn [run]. rewrite execute_add, Hlt, bool_decide_eq_true_2 by done.
    cbn [andb storage]. unfold set_customField. cbn. by rewrite insert_insert_eq.
  - intros Hne. rewrite !Hstep. split; [|split].
    + unfold set_customField. cbn. f_equal. f_equal. f_equal. by apply insert_insert_ne.
    + unfold getCustomField. cbn [metadataCount metadataStore].
      rewrite Hlt, insert_total_eq. cbn.
      by rewrite lookup_total_insert_ne, lookup_total_insert_eq.
    + unfold getCustomField. cbn [metadataCount metadataStore].
      rewrite Hlt, insert_total_eq. cbn.
      by rewrite lookup_total_insert_eq.
Qed.

Lemma custom_fields_upsert_witness :
  storage (run [(mkMsg 7%N 200%N, AddCustomField 0%N "k" "v1");
                (mkMsg 7%N 200%N, AddCustomField 0%N "k" "v2")] one_record)
    = storage (run [(mkMsg 7%N 200%N, AddCustomField 0%N "k" "v2")] one_record).
Proof.
  apply (custom_fields_upsert one_record (mkMsg 7%N 200%N) 0%N "k" "l" "v1" "v2").
  - vm_compute. reflexivity.
  - vm_compute. reflexivity.
Defined.

(** X7. The caller of [createMetadata] owns the record it gets: a later
    [updateFileHash] of the new id from the same address returns, and
    [getMetadata] then shows the new hash beside the creation data; the
    same call from any other address reverts with "Not the owner" and
    changes nothing. *)
Theorem creator_owns_new_record
    (w : World) (create_msg update_msg : Msg)
    (t d : string) (tg : list string) (hash newHash : string) :
  (metadataCount (storage w) < uint256_max)%N →
  let id := metadataCount (storage w) in
  let created := execute create_msg (CreateMetadata t d tg hash) w in
  (msg_sender update_msg = msg_sender create_msg →
     getMetadata (storage (execute update_msg (UpdateFileHash id newHash) created)) id
     = inr (t, d, msg_sender create_msg, block_timestamp create_msg, tg, newHash))
  ∧ (msg_sender update_msg ≠ msg_sender create_msg →
     call (updateFileHash update_msg id newHash) created = (inl Unauthorized, created)
     ∧ getMetadata (storage (execute update_msg (UpdateFileHash id newHash) created)) id
       = inr (t, d, msg_sender create_msg, block_timestamp create_msg, tg, hash)).
Proof.
  intros Hlt id created.
  assert (Hcreated : created =
    mkWorld
      (mkStorage (<[id := created_record create_msg t d tg hash
                            (metadataStore (storage w) !!! id)]> (metadataStore (storage w)))
                 (id + 1)%N)
      (logs w ++ [MetadataCreated id t (msg_sender create_msg) hash])).
  { unfold created. rewrite execute_create. apply N.ltb_lt in Hlt. by rewrite Hlt. }
  assert (Hid : (id <? id + 1)%N = true) by (apply N.ltb_lt; lia).
  split.
  - intros Hsame. rewrite execute_update, Hcreated.
    cbn [storage metadataCount metadataStore]. rewrite Hid, insert_total_eq.
    cbn [owner created_record]. rewrite bool_decide_eq_true_2 by done.
    cbn [andb storage]. unfold getMetadata. cbn [metadataCount metadataStore].
    by rewrite Hid, insert_total_eq.
  - intros Hother. unfold call. rewrite execute_update, updateFileHash_cases, Hcreated.
    cbn [storage metadataCount metadataStore]. rewrite Hid, insert_total_eq.
    cbn [owner created_record]. rewrite bool_decide_eq_false_2 by done.
    cbn [andb]. split; [reflexivity|].
    unfold getMetadata. cbn [storage metadataCount metadataStore].
    by rewrite Hid, insert_total_eq.
Qed.

Lemma creator_owns_new_record_witness :
  getMetadata
    (storage (execute (mkMsg 9%N 400%N) (UpdateFileHash 1%N "h3")
                (execute (mkMsg 9%N 300%N) (CreateMetadata "t2" "d2" ["x"] "h2") one_record)))
    1%N
  = inr ("t2", "d2", 9%N, 300%N, ["x"], "h3").
Proof.
  apply (creator_owns_new_record one_record (mkMsg 9%N 300%N) (mkMsg 9%N 400%N)
           "t2" "d2" ["x"] "h2" "h3").
  - vm_compute. reflexivity.
  - reflexivity.
Defined.

End MetadataStorageSpec.

(* ===================================================================== *)
(** * Part IV: theorems about the dashboard                               *)
(* ===================================================================== *)

Module DashboardSpec.
Import Dashboard.

(** ** Sorting by time value *)

Section SortByKey.
Context {A : Type} (key : A → option Z).


Lemma sort_insert_perm (cmp : A → A → option Z) x l :
  sort_insert cmp x l ≡ₚ x :: l.
Proof.
  induction l as [|y l IH]; cbn; [done|].
  destruct (_ <=? _)%Z; [done|].
  rewrite IH. apply Permutation_swap.
Qed.

Lemma Array_sort_cons (cmp : A → A → option Z) x l :
  Array_sort cmp (x :: l) = sort_insert cmp x (Array_sort cmp l).
Proof. reflexivity. Qed.

Lemma Array_sort_perm (cmp : A → A → option Z) l : Array_sort cmp l ≡ₚ l.
Proof.
  induction l as [|x l IH]; [done|].
  by rewrite Array_sort_cons, sort_insert_perm, IH.
Qed.








End SortByKey.

(** ** The two tables *)


(** C7, counterexample. An entry whose timestamp is not a date makes
    the comparator NaN against every other entry, which the sort takes
    as "equal": the array dated 1000, undated, 2000 is shown as it came,
    the entry of 1000 above the entry of 2000. *)
Lemma undated_entry_breaks_table_order :
  updateLedgerTable [dated_1000; undated; dated_2000]
    = Rows [dated_1000; undated; dated_2000]
  ∧ ¬ claimed_table_order.
Proof.
  split; [reflexivity|].
  intros Hclaim.
  specialize (Hclaim [dated_1000; undated; dated_2000] ltac:(discriminate)
                0%nat 2%nat dated_1000 dated_2000 1000%Z 2000%Z ltac:(lia)
                eq_refl eq_refl eq_refl eq_refl).
  lia.
Qed.


(** C8. For every block of the audit log: if its [previous_hash] is the
    sentinel of 64 zero characters, the text of the "previous hash" cell
    of its row is the label "Genesis" and not the sentinel; if it is any
    other non-empty hash, the text is the first 16 characters of that
    hash followed by "...". *)
Theorem genesis_block_label (blockchainData : list Block) (block : Block) :
  block ∈ blockchainData →
  ∃ rows, updateBlockchainTable blockchainData = Rows rows
    ∧ block_row block ∈ rows
    ∧ (previous_hash block = Some GENESIS →
         cell_text (previous_hash_cell (block_row block)) = "Genesis"
         ∧ cell_text (previous_hash_cell (block_row block)) ≠ GENESIS)
    ∧ (∀ h, previous_hash block = Some h → h ≠ "" → h ≠ GENESIS →
         cell_text (previous_hash_cell (block_row block)) = String.substring 0 16 h ++ "...")
    ∧ String.length GENESIS = 64
    ∧ (∀ i c, String.get i GENESIS = Some c → c = "0"%char).
Proof.
  intros Hin.
  exists (block_row <$> Array_sort (by_time block_timestamp) blockchainData).
  split; [destruct blockchainData; [by apply elem_of_nil in Hin | done]|].
  split.
  { apply list_elem_of_fmap. exists block. split; [done|]. by rewrite Array_sort_perm. }
  split; [|split; [|split]].
  - intros Hp. unfold block_row. cbn [previous_hash_cell cell_text].
    rewrite Hp. cbn. done.
  - intros h Hp Hne Hgen. unfold block_row. cbn [previous_hash_cell cell_text].
    rewrite Hp. cbn.
    rewrite (bool_decide_eq_false_2 (h = "")) by done. cbn.
    by rewrite (bool_decide_eq_false_2 (h = GENESIS)) by done.
  - reflexivity.
  - intros i c Hget.
    do 64 (destruct i as [|i]; [cbn in Hget; congruence|]).
    cbn in Hget. discriminate.
Qed.

Lemma genesis_block_label_witness :
  cell_text (previous_hash_cell (block_row genesis_block)) = "Genesis"
  ∧ cell_text (previous_hash_cell (block_row second_block)) = "ab12cd34ef56ab12..."
  ∧ ∃ rows, updateBlockchainTable [genesis_block; second_block] = Rows rows
    ∧ block_row genesis_block ∈ rows
    ∧ (previous_hash genesis_block = Some GENESIS →
         cell_text (previous_hash_cell (block_row genesis_block)) = "Genesis"
         ∧ cell_text (previous_hash_cell (block_row genesis_block)) ≠ GENESIS)
    ∧ (∀ h, previous_hash genesis_block = Some h → h ≠ "" → h ≠ GENESIS →
         cell_text (previous_hash_cell (block_row genesis_block))
           = String.substring 0 16 h ++ "...")
    ∧ String.length GENESIS = 64
    ∧ (∀ i c, String.get i GENESIS = Some c → c = "0"%char).
Proof.
  split; [reflexivity|]. split; [reflexivity|].
  apply (genesis_block_label [genesis_block; second_block] genesis_block).
  apply list_elem_of_here.
Defined.

(** ** The Flower panel *)



(** ** The progress bar *)

(** [Math.round] on the halves, the signed zeros and the double just
    below one half. 0.49999999999999994 is [0x1.fffffffffffffp-2]. *)
Example Math_round_halves :
  Math_round 2.5 = 3%float ∧ Math_round (-2.5) = (-2)%float
  ∧ Math_round 0.5 = 1%float ∧ Math_round (-0.5) = neg_zero
  ∧ Math_round 0x1.fffffffffffffp-2 = 0%float
  ∧ Math_round (-1.5) = (-1)%float
  ∧ Math_round 4503599627370497 = 4503599627370497%float
  ∧ Prim2SF (Math_round nan) = S754_nan
  ∧ Math_round neg_infinity = neg_infinity.
Proof. vm_compute. repeat split. Qed.

Example Math_min_zeros_and_nan :
  Math_min [0%float; neg_zero] = neg_zero ∧ Math_min [neg_zero; 0%float] = neg_zero
  ∧ Prim2SF (Math_min [3%float; nan; 2%float]) = S754_nan
  ∧ Math_min [100%float; 30%float] = 30%float
  ∧ Math_min [] = infinity.
Proof. vm_compute. repeat split. Qed.




(** The quotient is taken before the multiplication, in doubles:
    29 rounds of 200 is 14.499999999999998 and shows as 14%, where the
    exact 14.5 would round to 15. *)
Example progress_follows_double_arithmetic :
  progressText
    (updateFlowerStatus (Json (rounds_status (JsNumber 29) (JsNumber 200))) blank_panel)
    = Some "14%"
  ∧ claimed_percentage 29 200 = 15%Z.
Proof. split; vm_compute; reflexivity. Qed.

(** ** The poll cycle *)

(** C1, counterexample. The ledger request is rejected while the server
    would have served two audit blocks: the cycle fetches the Flower
    status and the ledger and stops; [/api/blockchain] is never
    requested and the audit-log table keeps its old content. *)
Lemma ledger_failure_skips_audit_log :
  requests_since blank_page (fetchAndUpdateData ledger_down blank_page)
    = ["/api/flower/status"; "/api/ledger"]
  ∧ blockchainBody (fetchAndUpdateData ledger_down blank_page) = blockchainBody blank_page
  ∧ updateBlockchainTable [genesis_block; second_block]
    = Rows [block_row second_block; block_row genesis_block]
  ∧ ¬ claimed_ledger_failure_isolation.
Proof.
  split; [reflexivity|]. split; [reflexivity|]. split; [reflexivity|].
  intros Hclaim.
  destruct (Hclaim ledger_down blank_page [genesis_block; second_block] I
              eq_refl eq_refl eq_refl) as (_ & Htable & _).
  discriminate Htable.
Qed.

Lemma showError_frame message p :
  requests (showError message p) = requests p
  ∧ ledgerBody (showError message p) = ledgerBody p
  ∧ blockchainBody (showError message p) = blockchainBody p
  ∧ loading (showError message p) = loading p.
Proof. unfold showError. by destruct (_ && _). Qed.

Lemma hideError_frame p :
  requests (hideError p) = requests p
  ∧ ledgerBody (hideError p) = ledgerBody p
  ∧ blockchainBody (hideError p) = blockchainBody p
  ∧ flowerPanel (hideError p) = flowerPanel p
  ∧ has_errorMessage (banner (hideError p)) = has_errorMessage (banner p)
  ∧ has_errorText (banner (hideError p)) = has_errorText (banner p).
Proof.
  unfold hideError.
  destruct (has_errorMessage (banner p)) eqn:Hdiv; cbn; rewrite ?Hdiv; by repeat split.
Qed.

Lemma showError_shown message p :
  has_errorMessage (banner p) = true → has_errorText (banner p) = true →
  banner_shown (showError message p)
  ∧ errorText_textContent (banner (showError message p)) = message.
Proof.
  intros Hdiv Htext. unfold showError, banner_shown. rewrite Hdiv, Htext. cbn.
  split; [|reflexivity].
  intros Hin. apply elem_of_difference in Hin as [_ Hnot].
  apply Hnot. by apply elem_of_singleton.
Qed.

(** The page on which the outer [catch] runs when the ledger request
    has failed. *)
Lemma ledger_failure_page (net : Network) (page0 : Page) :
  failed (ledger_response net) →
  fetchAndUpdateData net page0 =
    setLoading false
      (showError
         ("Error: " ++ ("Failed to load training data: "
                          ++ failure_message "ledger" (ledger_response net)))
         (add_request "/api/ledger"
            (set_flowerPanel
               (updateFlowerStatus (flower_status_response net)
                  (flowerPanel (hideError (setLoading true page0))))
               (add_request "/api/flower/status" (hideError (setLoading true page0)))))).
Proof.
  intros Hfailed. unfold fetchAndUpdateData.
  destruct (ledger_response net) as [message|code text|data]; [| |done]; reflexivity.
Qed.

(** C1, amended. In every poll cycle in which the ledger request fails
    (rejected, or answered with a status that is not ok), whatever the
    audit-log request would have returned: the cycle requests the Flower
    status and the ledger and nothing else, so the audit log is not
    fetched; the audit-log table and the ledger table keep their
    content; and, on a page that has the banner elements, the banner is
    shown with the message of the ledger failure and the loading state
    is cleared. *)
Theorem ledger_failure_aborts_cycle (net : Network) (page0 : Page) :
  failed (ledger_response net) →
  has_errorMessage (banner page0) = true →
  has_errorText (banner page0) = true →
  requests_since page0 (fetchAndUpdateData net page0) = ["/api/flower/status"; "/api/ledger"]
  ∧ ("/api/blockchain" ∉ requests_since page0 (fetchAndUpdateData net page0))
  ∧ blockchainBody (fetchAndUpdateData net page0) = blockchainBody page0
  ∧ ledgerBody (fetchAndUpdateData net page0) = ledgerBody page0
  ∧ banner_shown (fetchAndUpdateData net page0)
  ∧ errorText_textContent (banner (fetchAndUpdateData net page0))
    = "Error: Failed to load training data: "
        ++ failure_message "ledger" (ledger_response net)
  ∧ loading (fetchAndUpdateData net page0) = false.
Proof.
  intros Hfailed Hdiv Htext.
  rewrite (ledger_failure_page net page0 Hfailed).
  set (message := "Error: " ++ _).
  set (page1 := add_request "/api/ledger" _).
  destruct (hideError_frame (setLoading true page0))
    as (Hreq & Hledger & Hchain & _ & Hdiv' & Htext').
  destruct (showError_frame message page1) as (Hreq1 & Hledger1 & Hchain1 & _).
  assert (Hrequests : requests_since page0 (setLoading false (showError message page1))
                      = ["/api/flower/status"; "/api/ledger"]).
  { unfold requests_since. cbn [requests setLoading]. rewrite Hreq1.
    subst page1. cbn [requests add_request set_flowerPanel]. rewrite Hreq.
    cbn [requests setLoading].
    rewrite <- (app_assoc (requests page0)). by rewrite drop_app_length. }
  split; [exact Hrequests|].
  split.
  { rewrite Hrequests. intros Hin.
    apply elem_of_cons in Hin as [Hin|Hin]; [discriminate|].
    apply elem_of_cons in Hin as [Hin|Hin]; [discriminate|].
    by apply elem_of_nil in Hin. }
  split; [cbn [blockchainBody setLoading]; rewrite Hchain1; subst page1; cbn; by rewrite Hchain|].
  split; [cbn [ledgerBody setLoading]; rewrite Hledger1; subst page1; cbn; by rewrite Hledger|].
  assert (Hshown : banner_shown (showError message page1)
                   ∧ errorText_textContent (banner (showError message page1)) = message).
  { apply showError_shown; subst page1; cbn; by rewrite ?Hdiv', ?Htext'. }
  destruct Hshown as [Hshown Hmessage].
  split; [exact Hshown|]. split; [exact Hmessage|]. reflexivity.
Qed.

Lemma ledger_failure_aborts_cycle_witness :
  requests_since blank_page (fetchAndUpdateData ledger_down blank_page)
    = ["/api/flower/status"; "/api/ledger"]
  ∧ ("/api/blockchain" ∉ requests_since blank_page (fetchAndUpdateData ledger_down blank_page))
  ∧ blockchainBody (fetchAndUpdateData ledger_down blank_page) = blockchainBody blank_page
  ∧ ledgerBody (fetchAndUpdateData ledger_down blank_page) = ledgerBody blank_page
  ∧ banner_shown (fetchAndUpdateData ledger_down blank_page)
  ∧ errorText_textContent (banner (fetchAndUpdateData ledger_down blank_page))
    = "Error: Failed to load training data: Failed to fetch"
  ∧ loading (fetchAndUpdateData ledger_down blank_page) = false.
Proof.
  apply (ledger_failure_aborts_cycle ledger_down blank_page).
  - exact I.
  - reflexivity.
  - reflexivity.
Defined.

(** The sibling path: the ledger arrives and the audit-log request
    fails. The outer [catch] then shows the partial data it holds, the
    ledger table, next to the banner. *)
Lemma audit_failure_page (net : Network) (page0 : Page) (data : list LedgerEntry) :
  ledger_response net = Json data → failed (blockchain_response net) → data ≠ [] →
  fetchAndUpdateData net page0 =
    set_ledgerBody (updateLedgerTable data)
      (setLoading false
         (showError
            ("Error: " ++ ("Failed to load blockchain data: "
                             ++ failure_message "blockchain data" (blockchain_response net)))
            (add_request "/api/blockchain"
               (add_request "/api/ledger"
                  (set_flowerPanel
                     (updateFlowerStatus (flower_status_response net)
                        (flowerPanel (hideError (setLoading true page0))))
                     (add_request "/api/flower/status"
                        (hideError (setLoading true page0)))))))).
Proof.
  intros Hledger Hfailed Hdata. unfold fetchAndUpdateData. rewrite Hledger.
  destruct data as [|entry data]; [done|].
  destruct (blockchain_response net) as [message|code text|audit]; [| |done]; reflexivity.
Qed.

Lemma audit_failure_shows_ledger (net : Network) (page0 : Page) (data : list LedgerEntry) :
  ledger_response net = Json data → failed (blockchain_response net) → data ≠ [] →
  ledgerBody (fetchAndUpdateData net page0) = updateLedgerTable data
  ∧ blockchainBody (fetchAndUpdateData net page0) = blockchainBody page0.
Proof.
  intros Hledger Hfailed Hdata.
  rewrite (audit_failure_page net page0 data Hledger Hfailed Hdata).
  split; [reflexivity|].
  cbn [blockchainBody set_ledgerBody setLoading].
  destruct (showError_frame
              ("Error: " ++ ("Failed to load blockchain data: "
                 ++ failure_message "blockchain data" (blockchain_response net)))
              (add_request "/api/blockchain"
                 (add_request "/api/ledger"
                    (set_flowerPanel
                       (updateFlowerStatus (flower_status_response net)
                          (flowerPanel (hideError (setLoading true page0))))
                       (add_request "/api/flower/status"
                          (hideError (setLoading true page0)))))))
    as (_ & _ & Hchain & _).
  rewrite Hchain. cbn.
  by destruct (hideError_frame (setLoading true page0)) as (_ & _ & -> & _).
Qed.

(** When both critical requests deliver, both tables show the new data,
    whatever the status request does. *)
Lemma both_fetches_render (net : Network) (page0 : Page)
    (data : list LedgerEntry) (audit : list Block) :
  ledger_response net = Json data → blockchain_response net = Json audit →
  ledgerBody (fetchAndUpdateData net page0) = updateLedgerTable data
  ∧ blockchainBody (fetchAndUpdateData net page0) = updateBlockchainTable audit
  ∧ loading (fetchAndUpdateData net page0) = false.
Proof.
  intros Hledger Haudit. unfold fetchAndUpdateData. rewrite Hledger, Haudit.
  assert (Hhide : ∀ p, ledgerBody (hideError p) = ledgerBody p
                       ∧ blockchainBody (hideError p) = blockchainBody p
                       ∧ loading (hideError p) = loading p).
  { intros p. unfold hideError. by destruct (has_errorMessage _). }
  destruct data as [|entry data];
    (destruct (status_response net) as [message|code text|status];
     [| |destruct (training_in_progress status)]);
    cbn; apply Hhide.
Qed.

(** ** What every poll cycle does *)

Lemma hideError_fields p :
  loading (hideError p) = loading p
  ∧ charts (hideError p) = charts p
  ∧ controls (hideError p) = controls p
  ∧ requests (hideError p) = requests p
  ∧ flowerPanel (hideError p) = flowerPanel p
  ∧ ledgerBody (hideError p) = ledgerBody p
  ∧ blockchainBody (hideError p) = blockchainBody p.
Proof. unfold hideError. destruct (has_errorMessage _); by repeat split. Qed.

Lemma showError_fields message p :
  loading (showError message p) = loading p
  ∧ charts (showError message p) = charts p
  ∧ controls (showError message p) = controls p
  ∧ requests (showError message p) = requests p
  ∧ flowerPanel (showError message p) = flowerPanel p
  ∧ ledgerBody (showError message p) = ledgerBody p
  ∧ blockchainBody (showError message p) = blockchainBody p.
Proof. unfold showError. destruct (_ && _); by repeat split. Qed.

(** Splits a cycle by what the three awaited requests return, by
    whether the ledger is empty and by which banner elements the page
    has; each case then computes. *)
Ltac cycle_cases net page0 :=
  unfold fetchAndUpdateData;
  destruct (ledger_response net) as [?|? ?|[|? ?]];
  destruct (blockchain_response net) as [?|? ?|?];
  destruct (status_response net) as [?|? ?|[? ? ? [] ? ? ?]];
  destruct page0 as [? [[] [] ? ?] ? ? ? ? ? ?].

(** X8. However the requests of a cycle end, the loading state is
    cleared when the cycle is over. *)
Theorem cycle_clears_loading (net : Network) (page0 : Page) :
  loading (fetchAndUpdateData net page0) = false.
Proof. cycle_cases net page0; reflexivity. Qed.

Lemma cycle_request_order_aux (net : Network) (page0 : Page) :
  requests_since page0 (fetchAndUpdateData net page0)
  = "/api/flower/status" :: "/api/ledger"
      :: (if delivered (ledger_response net)
          then "/api/blockchain"
                 :: (if delivered (blockchain_response net) then ["/api/status"] else [])
          else []).
Proof.
  unfold requests_since.
  cycle_cases net page0; lazy -[drop length app];
    rewrite <- ?app_assoc; by rewrite drop_app_length.
Qed.

(** X9. A cycle sends its requests in one fixed order and stops at the
    first of the two critical ones that fails: the Flower status and
    the ledger always; the audit log only when the ledger was
    delivered; the training status only when both were. *)
Theorem cycle_request_order (net : Network) (page0 : Page) :
  requests_since page0 (fetchAndUpdateData net page0)
  = "/api/flower/status" :: "/api/ledger"
      :: (if delivered (ledger_response net)
          then "/api/blockchain"
                 :: (if delivered (blockchain_response net) then ["/api/status"] else [])
          else []).
Proof. apply cycle_request_order_aux. Qed.

(** X10. The Flower panel is refreshed from its own request in every
    cycle: what the ledger, audit-log and status requests return has no
    effect on it. *)
Theorem flower_panel_is_independent (net : Network) (page0 : Page) :
  flowerPanel (fetchAndUpdateData net page0)
  = updateFlowerStatus (flower_status_response net) (flowerPanel page0).
Proof. cycle_cases net page0; reflexivity. Qed.

Lemma hideError_hides p :
  has_errorMessage (banner p) = true → ¬ banner_shown (hideError p).
Proof.
  intros Hdiv. unfold banner_shown, hideError. rewrite Hdiv. cbn.
  intros Hnot. apply Hnot. apply elem_of_union_r. by apply elem_of_singleton.
Qed.

(** X11. When the ledger and the audit log are both delivered, the
    cycle renders both tables and the charts and ends with the error
    banner hidden, also when a banner was showing before and also when
    the training-status request fails: that failure is never shown. *)
Theorem good_cycle_renders_and_clears_banner (net : Network) (page0 : Page)
    (data : list LedgerEntry) (audit : list Block) :
  ledger_response net = Json data →
  blockchain_response net = Json audit →
  has_errorMessage (banner page0) = true →
  ¬ banner_shown (fetchAndUpdateData net page0)
  ∧ ledgerBody (fetchAndUpdateData net page0) = updateLedgerTable data
  ∧ blockchainBody (fetchAndUpdateData net page0) = updateBlockchainTable audit
  ∧ charts (fetchAndUpdateData net page0) = updateCharts data (charts page0).
Proof.
  intros Hledger Haudit Hdiv.
  destruct (both_fetches_render net page0 data audit Hledger Haudit) as (Hl & Hb & _).
  split; [|split; [exact Hl|split; [exact Hb|]]];
    clear Hl Hb; unfold fetchAndUpdateData; rewrite Hledger, Haudit;
    destruct page0 as [? [hasDiv hasText classes text] ? ? ? ? ? ?];
    cbn in Hdiv; subst hasDiv;
    destruct data as [|entry data];
    destruct (status_response net) as [?|? ?|[? ? ? [] ? ? ?]];
    try reflexivity;
    unfold banner_shown;
    change (¬ ("hidden" ∉ classes ∪ {["hidden"]} ∪ {["hidden"]}));
    intros Hnot; apply Hnot; apply elem_of_union_r; by apply elem_of_singleton.
Qed.

Lemma good_cycle_renders_and_clears_banner_witness :
  ¬ banner_shown
      (fetchAndUpdateData
         (mkNetwork (Rejected "x") (Json [round1; round2; round3])
                    (Json [genesis_block; second_block]) (Rejected "Failed to fetch"))
         page_with_banner)
  ∧ ledgerBody
      (fetchAndUpdateData
         (mkNetwork (Rejected "x") (Json [round1; round2; round3])
                    (Json [genesis_block; second_block]) (Rejected "Failed to fetch"))
         page_with_banner)
    = Rows [round2; round3; round1].
Proof.
  pose proof (good_cycle_renders_and_clears_banner
    (mkNetwork (Rejected "x") (Json [round1; round2; round3])
               (Json [genesis_block; second_block]) (Rejected "Failed to fetch"))
    page_with_banner [round1; round2; round3] [genesis_block; second_block]
    eq_refl eq_refl eq_refl) as (Hhidden & Hledger & _).
  split; [exact Hhidden | exact Hledger].
Defined.

(** X12. When the ledger is delivered and the audit-log request fails,
    the cycle stops before rendering: the charts and the audit-log table
    keep their content and the training status is not requested; the
    banner shows the audit-log failure; and the outer [catch] renders
    the ledger table from the data it holds, unless the ledger is empty,
    in which case that table is left as it was too. *)
Theorem audit_failure_renders_ledger_only (net : Network) (page0 : Page)
    (data : list LedgerEntry) :
  ledger_response net = Json data →
  failed (blockchain_response net) →
  has_errorMessage (banner page0) = true →
  has_errorText (banner page0) = true →
  ledgerBody (fetchAndUpdateData net page0)
    = (if decide (data = []) then ledgerBody page0 else updateLedgerTable data)
  ∧ blockchainBody (fetchAndUpdateData net page0) = blockchainBody page0
  ∧ charts (fetchAndUpdateData net page0) = charts page0
  ∧ controls (fetchAndUpdateData net page0) = controls page0
  ∧ requests_since page0 (fetchAndUpdateData net page0)
    = ["/api/flower/status"; "/api/ledger"; "/api/blockchain"]
  ∧ banner_shown (fetchAndUpdateData net page0)
  ∧ errorText_textContent (banner (fetchAndUpdateData net page0))
    = "Error: Failed to load blockchain data: "
        ++ failure_message "blockchain data" (blockchain_response net).
Proof.
  intros Hledger Hfailed Hdiv Htext.
  pose proof (cycle_request_order_aux net page0) as Hrequests.
  rewrite Hledger in Hrequests. cbn [delivered] in Hrequests.
  assert (Hnot : delivered (blockchain_response net) = false)
    by by destruct (blockchain_response net).
  rewrite Hnot in Hrequests.
  unfold fetchAndUpdateData in *. rewrite Hledger in *.
  destruct page0 as [? [hasDiv hasText classes text] ? ? ? ? ? ?].
  cbn in Hdiv, Htext. subst hasDiv hasText.
  destruct (blockchain_response net) as [message|code statusText|audit]; [| |done];
    (destruct data as [|entry data];
     (split; [reflexivity|]); (split; [reflexivity|]); (split; [reflexivity|]);
     (split; [reflexivity|]); (split; [exact Hrequests|]); (split; [|reflexivity]);
     unfold banner_shown;
     change ("hidden" ∉ (classes ∪ {["hidden"]}) ∖ {["hidden"]});
     intros Hin; apply elem_of_difference in Hin as [_ Hnot'];
     apply Hnot'; by apply elem_of_singleton).
Qed.

Lemma audit_failure_renders_ledger_only_witness :
  ledgerBody (fetchAndUpdateData audit_down blank_page) = Rows [round2; round3; round1]
  ∧ blockchainBody (fetchAndUpdateData audit_down blank_page) = NoData ""
  ∧ errorText_textContent (banner (fetchAndUpdateData audit_down blank_page))
    = "Error: Failed to load blockchain data: "
      ++ "Failed to fetch blockchain data: 500 Internal Server Error".
Proof.
  pose proof (audit_failure_renders_ledger_only audit_down blank_page
                [round1; round2; round3] eq_refl I eq_refl eq_refl)
    as (Hledger & Hchain & _ & _ & _ & _ & Hmessage).
  split; [exact Hledger|]. split; [exact Hchain | exact Hmessage].
Defined.

(** X13. After a cycle in which both tables were rendered, the training
    controls follow the status request: while it reports training in
    progress, the start button is disabled, the stop button and the
    status line are visible, and the round shown is the number of ledger
    entries (1 for an empty ledger); when it reports no training and the
    ledger is not empty, the controls are reset and one more timer that
    hides the status line is scheduled; with an empty ledger, or when
    the status request fails, the controls are left alone. *)
Theorem status_request_drives_controls (net : Network) (page0 : Page)
    (data : list LedgerEntry) (audit : list Block) :
  ledger_response net = Json data →
  blockchain_response net = Json audit →
  (∀ status, status_response net = Json status → training_in_progress status = true →
     startButton_disabled (controls (fetchAndUpdateData net page0)) = true
     ∧ ("hidden" ∉ stopButton_classList (controls (fetchAndUpdateData net page0)))
     ∧ ("hidden" ∉ statusDiv_classList (controls (fetchAndUpdateData net page0)))
     ∧ statusText_textContent (controls (fetchAndUpdateData net page0))
       = "Training in progress (Round " ++ pretty (1 `max` length data)%nat ++ ")"
     ∧ hide_status_timers (controls (fetchAndUpdateData net page0))
       = hide_status_timers (controls page0))
  ∧ (∀ status, status_response net = Json status → training_in_progress status = false →
     data ≠ [] →
     startButton_disabled (controls (fetchAndUpdateData net page0)) = false
     ∧ stopButton_disabled (controls (fetchAndUpdateData net page0)) = false
     ∧ ("hidden" ∈ stopButton_classList (controls (fetchAndUpdateData net page0)))
     ∧ statusText_textContent (controls (fetchAndUpdateData net page0))
       = "Training completed successfully"
     ∧ hide_status_timers (controls (fetchAndUpdateData net page0))
       = S (hide_status_timers (controls page0)))
  ∧ (∀ status, status_response net = Json status → training_in_progress status = false →
     data = [] →
     controls (fetchAndUpdateData net page0) = controls page0)
  ∧ (failed (status_response net) →
     controls (fetchAndUpdateData net page0) = controls page0).
Proof.
  intros Hledger Haudit.
  unfold fetchAndUpdateData. rewrite Hledger, Haudit.
  destruct page0
    as [? [[] [] ? ?] ? ? ? [start stop stopClasses statusClasses text timers] ? ?];
    (split; [|split; [|split]]).
  all: try (intros status Hstatus Htraining; rewrite Hstatus;
            destruct status as [? ? ? training ? ? ?]; cbn in Htraining; subst training).
  all: try (intros Hfailed; destruct (status_response net) as [?|? ?|?]; [| |done];
            by destruct data).
  all: try (intros ->; reflexivity).
  all: try (intros Hdata; destruct data as [|entry data]; [done|];
            split; [reflexivity|]; split; [reflexivity|]; split; [|split; reflexivity];
            change ("hidden" ∈ stopClasses ∪ {["hidden"]});
            apply elem_of_union_r; by apply elem_of_singleton).
  all: destruct data as [|entry data];
    (split; [reflexivity|]; split; [|split; [|split; [reflexivity|reflexivity]]]);
    first [ change ("hidden" ∉ stopClasses ∖ {["hidden"]})
          | change ("hidden" ∉ statusClasses ∖ {["hidden"]}) ];
    intros Hin; apply elem_of_difference in Hin as [_ Hnot];
    apply Hnot; by apply elem_of_singleton.
Qed.

Lemma status_request_drives_controls_witness :
  statusText_textContent
    (controls (fetchAndUpdateData (all_up [] [] training_status) blank_page))
    = "Training in progress (Round 1)"
  ∧ hide_status_timers
      (controls (fetchAndUpdateData (all_up [round1; round2] [] idle_status) blank_page))
    = 1.
Proof.
  split.
  - pose proof (status_request_drives_controls (all_up [] [] training_status) blank_page
                  [] [] eq_refl eq_refl) as (Htraining & _).
    apply (Htraining training_status eq_refl eq_refl).
  - pose proof (status_request_drives_controls (all_up [round1; round2] [] idle_status)
                  blank_page [round1; round2] [] eq_refl eq_refl) as (_ & Hidle & _).
    apply (Hidle idle_status eq_refl eq_refl). discriminate.
Defined.

(** ** More on the tables and the charts *)

(** X14. Whatever the timestamps are, parsable or not, each table shows
    every element of its array exactly once; the placeholder row is
    shown exactly when the array is empty. *)
Theorem tables_show_every_entry_once
    (ledgerData : list LedgerEntry) (blockchainData : list Block) :
  rows_of (updateLedgerTable ledgerData) ≡ₚ ledgerData
  ∧ (updateLedgerTable ledgerData = NoData "No training data available" ↔ ledgerData = [])
  ∧ rows_of (updateBlockchainTable blockchainData) ≡ₚ block_row <$> blockchainData
  ∧ (updateBlockchainTable blockchainData = NoData "No blockchain data available"
     ↔ blockchainData = []).
Proof.
  split; [|split; [|split]].
  - destruct ledgerData; [done|]. cbn [updateLedgerTable rows_of]. apply Array_sort_perm.
  - by destruct ledgerData.
  - destruct blockchainData; [done|]. cbn [updateBlockchainTable rows_of].
    by rewrite Array_sort_perm.
  - by destruct blockchainData.
Qed.






(** X17. [updateCharts] leaves both charts alone for an empty ledger;
    otherwise both get one point per ledger entry, in the order of the
    array (not of the timestamps), labelled "Round 1", "Round 2", ...
    by position, with the entry's accuracy and loss, a missing, null,
    zero or NaN metric being plotted as 0. *)
Theorem charts_follow_array_order
    (ledgerData : list LedgerEntry) (old : Chart * Chart) :
  (ledgerData = [] → updateCharts ledgerData old = old)
  ∧ (ledgerData ≠ [] →
     chart_labels (updateCharts ledgerData old).1
       = chart_labels (updateCharts ledgerData old).2
     ∧ length (chart_labels (updateCharts ledgerData old).1) = length ledgerData
     ∧ length (chart_data (updateCharts ledgerData old).1) = length ledgerData
     ∧ length (chart_data (updateCharts ledgerData old).2) = length ledgerData
     ∧ ∀ (i : nat) (entry : LedgerEntry), ledgerData !! i = Some entry →
         chart_labels (updateCharts ledgerData old).1 !! i
           = Some ("Round " ++ pretty (Z.of_nat i + 1)%Z)
         ∧ chart_data (updateCharts ledgerData old).1 !! i
           = Some (if ToBoolean (accuracy entry) then ToNumber (accuracy entry) else 0%float)
         ∧ chart_data (updateCharts ledgerData old).2 !! i
           = Some (if ToBoolean (loss entry) then ToNumber (loss entry) else 0%float))
  ∧ number_or_zero JsUndefined = 0%float ∧ number_or_zero JsNull = 0%float
  ∧ number_or_zero (JsNumber 0) = 0%float ∧ number_or_zero (JsNumber nan) = 0%float.
Proof.
  split; [by intros ->|]. split; [|by vm_compute].
  intros Hne. destruct ledgerData as [|first rest]; [done|].
  cbn [updateCharts fst snd chart_labels chart_data]. unfold round_labels.
  split; [reflexivity|]. split; [by rewrite length_imap|].
  split; [by rewrite length_fmap|]. split; [by rewrite length_fmap|].
  intros i entry Hi. rewrite list_lookup_imap, !list_lookup_fmap, Hi. done.
Qed.

(** ** The start and stop buttons *)


Section ParseInt.
Local Open Scope list_scope.







End ParseInt.

(** ** What a click leaves on the page *)

(** Membership in a class list built with [∪], [∖] and [{[ _ ]}] from
    literal class names. *)
Ltac classes :=
  repeat first [ rewrite elem_of_union | rewrite elem_of_difference
               | rewrite elem_of_singleton ];
  intuition (first [discriminate | reflexivity]).

(** X20. When the start button has sent its request: if the request
    fails, the start button is enabled again, the stop button is hidden
    and the status line is visible and red, without the blue classes,
    with the message of the failure; if it succeeds, the start button
    stays disabled, the stop button is visible and the status line is
    visible and blue, without the red classes. In both cases the tables,
    the charts, the banner and the Flower panel are not touched. *)
Theorem start_click_outcome
    (numRoundsInput numClientsInput : JsString) (response : Fetched unit) (p : Page) :
  below_minimum (parseInt numRoundsInput) = false →
  below_minimum (parseInt numClientsInput) = false →
  let after := started_page (startTraining numRoundsInput numClientsInput response p) in
  (failed response →
     startButton_disabled (controls after) = false
     ∧ ("hidden" ∈ stopButton_classList (controls after))
     ∧ ("hidden" ∉ statusDiv_classList (controls after))
     ∧ ("bg-red-100" ∈ statusDiv_classList (controls after))
     ∧ ("bg-blue-100" ∉ statusDiv_classList (controls after))
     ∧ statusText_textContent (controls after)
       = "Error: " ++ post_failure "Failed to start training" response)
  ∧ (delivered response = true →
     startButton_disabled (controls after) = true
     ∧ ("hidden" ∉ stopButton_classList (controls after))
     ∧ ("hidden" ∉ statusDiv_classList (controls after))
     ∧ ("bg-blue-100" ∈ statusDiv_classList (controls after))
     ∧ ("bg-red-100" ∉ statusDiv_classList (controls after)))
  ∧ ledgerBody after = ledgerBody p ∧ blockchainBody after = blockchainBody p
  ∧ charts after = charts p ∧ banner after = banner p ∧ flowerPanel after = flowerPanel p
  ∧ stopButton_disabled (controls after) = stopButton_disabled (controls p)
  ∧ hide_status_timers (controls after) = hide_status_timers (controls p).
Proof.
  intros Hrounds Hclients. unfold startTraining. rewrite Hrounds, Hclients.
  cbn [started_page].
  split; [|split; [|by destruct response]].
  - intros Hfailed.
    destruct response as [message|code text|[]]; [| |done]; cbn;
      (split; [done|]); (split; [classes|]); (split; [classes|]);
      (split; [classes|]); (split; [classes|]); done.
  - intros Hok. destruct response as [message|code text|[]]; [done|done|]. cbn.
    split; [done|]. split; [classes|]. split; [classes|].
    split; classes.
Qed.

Lemma start_click_outcome_witness :
  startButton_disabled
    (controls (started_page
       (startTraining (code_units "3") (code_units "2") (NotOk 500 "Internal Server Error")
                      blank_page)))
  = false
  ∧ statusText_textContent
      (controls (started_page
         (startTraining (code_units "3") (code_units "2") (NotOk 500 "Internal Server Error")
                        blank_page)))
    = "Error: Failed to start training".
Proof.
  pose proof (start_click_outcome (code_units "3") (code_units "2")
                (NotOk 500 "Internal Server Error") blank_page eq_refl eq_refl)
    as (Hfailed & _).
  destruct (Hfailed I) as (Hstart & _ & _ & _ & _ & Htext).
  split; [exact Hstart | exact Htext].
Defined.

(** X21. A click on the stop button always sends [POST /api/stop]. If
    the request fails, the stop button is enabled again and stays as
    visible as it was, the start button is left as it was and the status
    line turns red with the message of the failure; if it succeeds, both
    buttons are enabled, the stop button is hidden, the status line reads
    "Training completed successfully" and one timer is scheduled to hide
    it. *)
Theorem stop_click_outcome (response : Fetched unit) (p : Page) :
  requests (stopTraining response p) = (requests p ++ ["/api/stop"])%list
  ∧ (failed response →
     stopButton_disabled (controls (stopTraining response p)) = false
     ∧ stopButton_classList (controls (stopTraining response p))
       = stopButton_classList (controls p)
     ∧ startButton_disabled (controls (stopTraining response p))
       = startButton_disabled (controls p)
     ∧ ("bg-red-100" ∈ statusDiv_classList (controls (stopTraining response p)))
     ∧ ("bg-blue-100" ∉ statusDiv_classList (controls (stopTraining response p)))
     ∧ statusText_textContent (controls (stopTraining response p))
       = "Error: " ++ post_failure "Failed to stop training" response
     ∧ hide_status_timers (controls (stopTraining response p))
       = hide_status_timers (controls p))
  ∧ (delivered response = true →
     startButton_disabled (controls (stopTraining response p)) = false
     ∧ stopButton_disabled (controls (stopTraining response p)) = false
     ∧ ("hidden" ∈ stopButton_classList (controls (stopTraining response p)))
     ∧ ("bg-green-100" ∈ statusDiv_classList (controls (stopTraining response p)))
     ∧ ("bg-blue-100" ∉ statusDiv_classList (controls (stopTraining response p)))
     ∧ statusText_textContent (controls (stopTraining response p))
       = "Training completed successfully"
     ∧ hide_status_timers (controls (stopTraining response p))
       = S (hide_status_timers (controls p))).
Proof.
  unfold stopTraining.
  split; [by destruct response|]. split.
  - intros Hfailed.
    destruct response as [message|code text|[]]; [| |done]; cbn;
      (split; [done|]); (split; [done|]); (split; [done|]);
      (split; [classes|]); (split; [classes|]); done.
  - intros Hok. destruct response as [message|code text|[]]; [done|done|]. cbn.
    split; [done|]. split; [done|]. split; [classes|].
    split; [classes|]. split; [classes|]. done.
Qed.

(** ** Timestamps and hashes in the cells *)

(** X22. For a valid date, [formatTimestamp] shows "Just now" up to
    four whole seconds of age and for every date in the future; then
    the seconds, from 5 to 59; then whole minutes from 1 to 59, whole
    hours from 1 to 23 and whole days from 1 on, each rounded down, with
    the unit in the singular exactly for 1. *)
Theorem relative_time_buckets (now date : Z) :
  let diff := ((now - date) `div` 1000)%Z in
  ∃ text, formatTimestamp now (Truthy (Some date)) = DateAndAge date text
    ∧ ((diff < 5)%Z → text = "Just now")
    ∧ ((now ≤ date)%Z → text = "Just now")
    ∧ ((5 ≤ diff < 60)%Z → text = pretty diff ++ " seconds ago")
    ∧ ((60 ≤ diff < 3600)%Z →
       ∃ n, (1 ≤ n ≤ 59)%Z ∧ (60 * n ≤ diff < 60 * (n + 1))%Z
            ∧ text = pretty n ++ (if decide (n = 1%Z) then " minute ago" else " minutes ago"))
    ∧ ((3600 ≤ diff < 86400)%Z →
       ∃ n, (1 ≤ n ≤ 23)%Z ∧ (3600 * n ≤ diff < 3600 * (n + 1))%Z
            ∧ text = pretty n ++ (if decide (n = 1%Z) then " hour ago" else " hours ago"))
    ∧ ((86400 ≤ diff)%Z →
       ∃ n, (1 ≤ n)%Z ∧ (86400 * n ≤ diff < 86400 * (n + 1))%Z
            ∧ text = pretty n ++ (if decide (n = 1%Z) then " day ago" else " days ago")).
Proof.
  intros diff. eexists. split; [reflexivity|]. fold diff.
  assert (Hunit : ∀ n (unit : string),
    pretty n ++ unit ++ (if (1 <? n)%Z then "s" else "") ++ " ago"
    = pretty n ++ (if decide (n = 1%Z) then unit ++ " ago" else unit ++ "s ago")
    ∨ (n < 1)%Z).
  { intros n unit. destruct (Z.ltb_spec 1 n); [|destruct (decide (n = 1%Z))].
    - left. rewrite decide_False by lia. by f_equal.
    - left. subst n. by f_equal.
    - right. lia. }
  unfold relativeTime.
  repeat split.
  - intros H. destruct (Z.ltb_spec diff 5); [done|lia].
  - intros H. assert (diff ≤ 0)%Z by (unfold diff; apply Z.div_le_upper_bound; lia).
    destruct (Z.ltb_spec diff 5); [done|lia].
  - intros H. destruct (Z.ltb_spec diff 5); [lia|]. destruct (Z.ltb_spec diff 60); [done|lia].
  - intros H. destruct (Z.ltb_spec diff 5); [lia|]. destruct (Z.ltb_spec diff 60); [lia|].
    destruct (Z.ltb_spec diff 3600); [|lia].
    exists (diff `div` 60)%Z.
    pose proof (Z.div_mod diff 60 ltac:(lia)). pose proof (Z.mod_pos_bound diff 60 ltac:(lia)).
    split; [lia|]. split; [lia|].
    destruct (Hunit (diff `div` 60)%Z " minute") as [->|?]; [done|lia].
  - intros H. destruct (Z.ltb_spec diff 5); [lia|]. destruct (Z.ltb_spec diff 60); [lia|].
    destruct (Z.ltb_spec diff 3600); [lia|]. destruct (Z.ltb_spec diff 86400); [|lia].
    exists (diff `div` 3600)%Z.
    pose proof (Z.div_mod diff 3600 ltac:(lia)).
    pose proof (Z.mod_pos_bound diff 3600 ltac:(lia)).
    split; [lia|]. split; [lia|].
    destruct (Hunit (diff `div` 3600)%Z " hour") as [->|?]; [done|lia].
  - intros H. destruct (Z.ltb_spec diff 5); [lia|]. destruct (Z.ltb_spec diff 60); [lia|].
    destruct (Z.ltb_spec diff 3600); [lia|]. destruct (Z.ltb_spec diff 86400); [lia|].
    exists (diff `div` 86400)%Z.
    pose proof (Z.div_mod diff 86400 ltac:(lia)).
    pose proof (Z.mod_pos_bound diff 86400 ltac:(lia)).
    split; [lia|]. split; [lia|].
    destruct (Hunit (diff `div` 86400)%Z " day") as [->|?]; [done|lia].
Qed.

Lemma substring_length (n : nat) : ∀ s : string,
  String.length (String.substring 0 n s) = (n `min` String.length s)%nat.
Proof.
  induction n as [|n IH]; intros [|a s]; cbn; try done. by rewrite IH.
Qed.

Lemma substring_whole (n : nat) : ∀ s : string,
  (String.length s ≤ n)%nat → String.substring 0 n s = s.
Proof.
  induction n as [|n IH]; intros [|a s] Hs; cbn in *; try done; try lia.
  f_equal. apply IH. lia.
Qed.

Lemma append_length (s1 s2 : string) :
  String.length (s1 ++ s2) = (String.length s1 + String.length s2)%nat.
Proof. induction s1 as [|a s1 IH]; [done|]. exact (f_equal S IH). Qed.

(** X23. The hash cells of an audit-log row never show more than 19
    characters, the full hash being kept in the title of the cell: a
    hash of more than 16 characters is cut to its first 16 followed by
    "...", a shorter one is shown whole, still followed by "...", and a
    missing or empty one is shown as "N/A". *)
Theorem hash_cells_are_short (block : Block) :
  (String.length (cell_text (data_hash_cell (block_row block))) ≤ 19)%nat
  ∧ (String.length (cell_text (previous_hash_cell (block_row block))) ≤ 19)%nat
  ∧ cell_title (data_hash_cell (block_row block)) = default "" (data_hash block)
  ∧ cell_title (previous_hash_cell (block_row block)) = default "" (previous_hash block)
  ∧ (∀ h, data_hash block = Some h → h ≠ "" →
       cell_text (data_hash_cell (block_row block)) = String.substring 0 16 h ++ "..."
       ∧ ((String.length h ≤ 16)%nat → cell_text (data_hash_cell (block_row block)) = h ++ "..."))
  ∧ (data_hash block = None ∨ data_hash block = Some "" →
       cell_text (data_hash_cell (block_row block)) = "N/A")
  ∧ (previous_hash block = None ∨ previous_hash block = Some "" →
       cell_text (previous_hash_cell (block_row block)) = "N/A").
Proof.
  assert (Hshort : ∀ h, (String.length (String.substring 0 16 h ++ "...") ≤ 19)%nat).
  { intros h. rewrite append_length, substring_length.
    change (String.length "...") with 3%nat. lia. }
  unfold block_row. cbn [data_hash_cell previous_hash_cell cell_text cell_title].
  split; [|split; [|split; [done|split; [done|split; [|split]]]]].
  - destruct (truthy (data_hash block)); [apply Hshort | cbn; lia].
  - destruct (truthy (previous_hash block)); [|cbn; lia].
    destruct (bool_decide _); [cbn; lia | apply Hshort].
  - intros h Hh Hne. rewrite Hh. cbn [truthy hash_of default].
    rewrite bool_decide_eq_false_2 by done. cbn [negb].
    split; [done|]. intros Hlen. by rewrite substring_whole.
  - by intros [->| ->].
  - by intros [->| ->].
Qed.

End DashboardSpec.

(* ===================================================================== *)
(** * Part V: theorems about the front end                                *)
(* ===================================================================== *)

Module AppSpec.
Import App.
Import (hints) MetadataStorage.

(** ** The digest as text *)

Lemma byte_text_checked (b : Byte.byte) :
  match padStart 2 "0" (toString16 b) with
  | String c1 (String c2 "") =>
      let hex c := let n := N_of_ascii c in
                   (((48 <=? n) && (n <=? 57)) || ((97 <=? n) && (n <=? 102)))%N in
      let value c := let n := N_of_ascii c in
                     if (n <? 58)%N then (n - 48)%N else (n - 87)%N in
      hex c1 && hex c2 && (Byte.to_N b =? 16 * value c1 + value c2)%N
  | _ => false
  end = true.
Proof. destruct b; reflexivity. Qed.

Lemma byte_text (b : Byte.byte) :
  ∃ c1 c2, padStart 2 "0" (toString16 b) = String c1 (String c2 "")
    ∧ ((48 ≤ N_of_ascii c1 ≤ 57 ∨ 97 ≤ N_of_ascii c1 ≤ 102)
       ∧ (48 ≤ N_of_ascii c2 ≤ 57 ∨ 97 ≤ N_of_ascii c2 ≤ 102))%N.
Proof.
  pose proof (byte_text_checked b) as H.
  destruct (padStart 2 "0" (toString16 b)) as [|c1 [|c2 [|? ?]]]; try done.
  exists c1, c2. split; [done|].
  cbv zeta in H. apply andb_prop in H as [H _]. apply andb_prop in H as [H1 H2].
  split.
  - apply orb_prop in H1 as [H1|H1]; apply andb_prop in H1 as [Ha Hb];
      apply N.leb_le in Ha, Hb; lia.
  - apply orb_prop in H2 as [H2|H2]; apply andb_prop in H2 as [Ha Hb];
      apply N.leb_le in Ha, Hb; lia.
Qed.

Lemma byte_text_inj (b b' : Byte.byte) :
  padStart 2 "0" (toString16 b) = padStart 2 "0" (toString16 b') → b = b'.
Proof.
  intros Heq.
  pose proof (byte_text_checked b) as H. pose proof (byte_text_checked b') as H'.
  rewrite <- Heq in H'.
  destruct (padStart 2 "0" (toString16 b)) as [|c1 [|c2 [|? ?]]]; try done.
  cbv zeta in H, H'.
  apply andb_prop in H as [_ H]. apply andb_prop in H' as [_ H'].
  apply N.eqb_eq in H, H'. rewrite <- H' in H.
  apply (f_equal Byte.of_N) in H. rewrite !Byte.of_to_N in H. congruence.
Qed.

Lemma hashHex_cons b hashArray :
  hashHex (b :: hashArray) = padStart 2 "0" (toString16 b) ++ hashHex hashArray.
Proof. reflexivity. Qed.

(** X24. The text of a digest has two characters for every byte (64 for
    the 32 bytes of SHA-256), all of them digits or the lower-case
    letters a to f, and two digests with the same text are the same. *)
Theorem file_hash_is_lowercase_hex (hashArray : list Byte.byte) :
  String.length (hashHex hashArray) = (2 * length hashArray)%nat
  ∧ Forall (λ c, (48 ≤ N_of_ascii c ≤ 57 ∨ 97 ≤ N_of_ascii c ≤ 102)%N)
           (String.list_ascii_of_string (hashHex hashArray))
  ∧ ∀ other, hashHex hashArray = hashHex other → hashArray = other.
Proof.
  induction hashArray as [|b hashArray (IHlen & IHhex & IHinj)].
  - split; [done|]. split; [constructor|].
    intros [|b' other]; [done|]. rewrite hashHex_cons.
    destruct (byte_text b') as (c1 & c2 & -> & _). discriminate.
  - rewrite hashHex_cons.
    destruct (byte_text b) as (c1 & c2 & Hb & H1 & H2). rewrite Hb.
    change (String c1 (String c2 "") ++ hashHex hashArray)
      with (String c1 (String c2 (hashHex hashArray))).
    cbn [String.length String.list_ascii_of_string length].
    split; [rewrite IHlen; lia|].
    split; [by apply Forall_cons_2; [|apply Forall_cons_2]|].
    intros [|b' other].
    + discriminate.
    + rewrite hashHex_cons.
      destruct (byte_text b') as (c1' & c2' & Hb' & _). rewrite Hb'.
      change (String c1' (String c2' "") ++ hashHex other)
        with (String c1' (String c2' (hashHex other))).
      intros Heq. injection Heq as -> -> Hrest.
      f_equal; [|by apply IHinj].
      apply byte_text_inj. by rewrite Hb, Hb'.
Qed.

(** ** The tags *)

Section Tags.
Import Dashboard.
Local Open Scope list_scope.

Lemma split_nonempty sep text : split sep text ≠ [].
Proof.
  destruct text as [|c rest]; cbn; [done|].
  destruct (c =? sep)%N; [done|]. by destruct (split sep rest).
Qed.

Lemma split_length sep (text : list N) :
  length (split sep text) = S (length (filter (λ c, c = sep) text)).
Proof.
  induction text as [|c rest IH]; [done|]. cbn [split].
  destruct (N.eqb_spec c sep) as [->|Hc].
  - rewrite filter_cons_True by done. cbn. by rewrite IH.
  - rewrite filter_cons_False by done. rewrite <- IH.
    pose proof (split_nonempty sep rest). by destruct (split sep rest).
Qed.

Lemma split_pieces sep text :
  Forall (λ piece, (sep ∉ piece) ∧ ∀ c, c ∈ piece → c ∈ text) (split sep text).
Proof.
  induction text as [|c rest IH]; cbn [split].
  - constructor; [|constructor]. split; [apply not_elem_of_nil | done].
  - assert (Hrest : Forall (λ piece, (sep ∉ piece) ∧ ∀ x, x ∈ piece → x ∈ c :: rest)
                           (split sep rest)).
    { eapply Forall_impl; [exact IH|]. intros piece [? Hsub]. split; [done|].
      intros x Hx. right. by apply Hsub. }
    destruct (N.eqb_spec c sep) as [->|Hc].
    + constructor; [|done]. split; [apply not_elem_of_nil|]. by intros x ?%elem_of_nil.
    + destruct (split sep rest) as [|piece pieces].
      * constructor; [|constructor]. split.
        -- intros [->|?%elem_of_nil]%elem_of_cons; done.
        -- intros x [->|?%elem_of_nil]%elem_of_cons; [left|done].
      * apply Forall_cons in Hrest as [[Hsep Hsub] Hrest].
        constructor; [|done]. split.
        -- intros [->|?]%elem_of_cons; done.
        -- intros x [->|?]%elem_of_cons; [left|by apply Hsub].
Qed.

Lemma split_app_separator sep piece rest :
  sep ∉ piece → split sep (piece ++ sep :: rest) = piece :: split sep rest.
Proof.
  induction piece as [|c piece IH]; intros Hsep; cbn [app split].
  - by rewrite N.eqb_refl.
  - apply not_elem_of_cons in Hsep as [Hc Hsep].
    destruct (N.eqb_spec c sep) as [->|_]; [done|]. by rewrite IH.
Qed.

Lemma split_without_separator sep piece : sep ∉ piece → split sep piece = [piece].
Proof.
  induction piece as [|c piece IH]; intros Hsep; cbn [split]; [done|].
  apply not_elem_of_cons in Hsep as [Hc Hsep].
  destruct (N.eqb_spec c sep) as [->|_]; [done|]. by rewrite IH.
Qed.

Lemma skip_whitespace_suffix text :
  ∃ ws, text = ws ++ skip_whitespace text ∧ Forall (λ c, StrWhiteSpaceChar c = true) ws.
Proof.
  induction text as [|c rest (ws & IH & Hws)]; [by exists []|]. cbn [skip_whitespace].
  destruct (StrWhiteSpaceChar c) eqn:Hc.
  - exists (c :: ws). split; [cbn; by rewrite <- IH | by constructor].
  - by exists [].
Qed.

Lemma skip_whitespace_head text c :
  head (skip_whitespace text) = Some c → StrWhiteSpaceChar c = false.
Proof.
  induction text as [|x rest IH]; [done|]. cbn [skip_whitespace].
  destruct (StrWhiteSpaceChar x) eqn:Hx; [done|]. cbn. congruence.
Qed.

Lemma skip_whitespace_keeps text :
  (∀ c, head text = Some c → StrWhiteSpaceChar c = false) → skip_whitespace text = text.
Proof.
  destruct text as [|c rest]; [done|]. intros H. cbn. by rewrite (H c).
Qed.

Lemma skip_whitespace_all text :
  Forall (λ c, StrWhiteSpaceChar c = true) text → skip_whitespace text = [].
Proof. induction 1 as [|c rest Hc _ IH]; [done|]. cbn. by rewrite Hc. Qed.

Lemma trim_elem_of text c : c ∈ trim text → c ∈ text.
Proof.
  unfold trim. rewrite elem_of_reverse. intros Hc.
  destruct (skip_whitespace_suffix (reverse (skip_whitespace text))) as (ws & Heq & _).
  assert (c ∈ reverse (skip_whitespace text)) as Hc'
    by (rewrite Heq, elem_of_app; by right).
  rewrite elem_of_reverse in Hc'.
  destruct (skip_whitespace_suffix text) as (ws' & Heq' & _).
  rewrite Heq', elem_of_app. by right.
Qed.

Lemma trim_ends text :
  (∀ c, head (trim text) = Some c → StrWhiteSpaceChar c = false)
  ∧ (∀ c, last (trim text) = Some c → StrWhiteSpaceChar c = false).
Proof.
  unfold trim. split; intros c.
  - rewrite head_reverse. intros Hlast.
    destruct (skip_whitespace_suffix (reverse (skip_whitespace text))) as (ws & Heq & _).
    apply (skip_whitespace_head text).
    rewrite <- last_reverse, Heq, last_app, Hlast. done.
  - rewrite last_reverse. apply skip_whitespace_head.
Qed.

Lemma trim_well_formed piece : (44%N ∉ piece) → well_formed_tag (trim piece).
Proof.
  intros Hsep. split; [|apply trim_ends].
  intros H. by apply Hsep, trim_elem_of.
Qed.

Lemma trim_keeps tag : well_formed_tag tag → trim tag = tag.
Proof.
  intros (_ & Hhead & Hlast). unfold trim.
  rewrite (skip_whitespace_keeps tag) by done.
  rewrite skip_whitespace_keeps, reverse_involutive; [done|].
  intros c. rewrite head_reverse. apply Hlast.
Qed.

Lemma trim_white piece :
  Forall (λ c, StrWhiteSpaceChar c = true) piece → trim piece = [].
Proof. intros H. unfold trim. by rewrite (skip_whitespace_all piece). Qed.

Lemma tagArray_after_space text : tagArray (32%N :: text) = tagArray text.
Proof.
  unfold tagArray. cbn [split].
  pose proof (split_nonempty 44 text).
  destruct (split 44 text) as [|piece pieces]; [done|].
  change (32 =? 44)%N with false. cbn [fmap list_fmap]. done.
Qed.

Lemma tagArray_next tag text :
  (44%N ∉ tag) → tagArray (tag ++ 44%N :: text) = trim tag :: tagArray text.
Proof. intros H. unfold tagArray. by rewrite split_app_separator. Qed.

(** X25. The tags sent to the contract are the pieces of the typed text
    between its commas, one more than there are commas: none is
    dropped, so a piece of white space only is sent as an empty tag.
    No tag holds a comma or has white space at either end. *)
Theorem every_piece_becomes_a_tag (tags : JsString) :
  length (tagArray tags) = S (length (filter (λ c, c = 44%N) tags))
  ∧ Forall well_formed_tag (tagArray tags)
  ∧ (Forall (λ c, c = 44%N ∨ StrWhiteSpaceChar c = true) tags →
     Forall (λ tag, tag = []) (tagArray tags)).
Proof.
  unfold tagArray, JsString in *. split; [|split].
  - by rewrite length_fmap, split_length.
  - apply Forall_fmap. eapply Forall_impl; [apply (split_pieces 44)|].
    intros piece [Hsep _]. by apply trim_well_formed.
  - intros Hws. apply Forall_fmap. eapply Forall_impl; [apply (split_pieces 44)|].
    intros piece [Hsep Hsub]. apply trim_white, Forall_forall. intros c Hc.
    rewrite Forall_forall in Hws. destruct (Hws c (Hsub c Hc)) as [->|]; done.
Qed.

(** X26. Typing the tags as a card shows them, joined by a comma and a
    space, gives the same tags back, when there is at least one and
    none holds a comma or starts or ends with white space. *)
Theorem shown_tags_parse_back (tags : list JsString) :
  tags ≠ [] → Forall well_formed_tag tags → tagArray (tags_text tags) = tags.
Proof.
  intros Hne Hwf. induction Hwf as [|tag rest Htag Hrest IH]; [done|].
  destruct rest as [|next rest].
  - unfold tags_text, tagArray. cbn [Array_join].
    rewrite split_without_separator by apply Htag. cbn. by rewrite trim_keeps.
  - change (tags_text (tag :: next :: rest))
      with (tag ++ 44%N :: 32%N :: tags_text (next :: rest)).
    rewrite tagArray_next by apply Htag.
    rewrite tagArray_after_space, IH by done. by rewrite trim_keeps.
Qed.

Lemma shown_tags_parse_back_witness :
  tagArray (tags_text [code_units "ai"; code_units "fl"])
  = [code_units "ai"; code_units "fl"].
Proof.
  change (code_units "ai") with [97; 105]%N.
  change (code_units "fl") with [102; 108]%N.
  apply shown_tags_parse_back; [done|].
  repeat (apply Forall_cons_2 || apply Forall_nil_2);
    (split; [|split; intros c [= <-]; reflexivity]);
    intros H; repeat (apply elem_of_cons in H as [H|H]; [discriminate|]);
    by apply elem_of_nil in H.
Defined.

End Tags.

(** ** The list of cards *)

Section Cards.
Local Open Scope list_scope.




Lemma load_loop_ext s s' fuel : ∀ count i metadataItems,
  (∀ j, MetadataStorage.getMetadata s j = MetadataStorage.getMetadata s' j) →
  load_loop fuel s count i metadataItems = load_loop fuel s' count i metadataItems.
Proof.
  induction fuel as [|fuel IH]; intros count i metadataItems Hsame; [done|].
  cbn [load_loop]. unfold contract_getMetadata. rewrite Hsame.
  destruct (i <? count)%N; [|done]. destruct (i <? 2 ^ 53)%N; [|done].
  destruct (MetadataStorage.getMetadata s' i); [done|]. by apply IH.
Qed.




(** X28. A custom field does not show in the list: whoever sends
    [addCustomField], and whether it goes through or reverts,
    [loadMetadataList] gives after it what it gave before, in every
    closure, with the contract or without. *)
Theorem custom_fields_are_not_listed (msg : MetadataStorage.Msg) (_id : N)
    (_key _value : string) (w : MetadataStorage.World) (contract : option Contract)
    (v : View) (fuel : nat) :
  loadMetadataList fuel contract
    (MetadataStorage.storage
       (MetadataStorage.execute msg (MetadataStorage.AddCustomField _id _key _value) w)) v
  = loadMetadataList fuel contract (MetadataStorage.storage w) v.
Proof.
  destruct contract as [contract|]; [|done].
  rewrite MetadataStorageSpec.execute_add.
  destruct (_ && _); [|done]. cbn [MetadataStorage.storage].
  unfold loadMetadataList, MetadataStorage.getMetadataCount. cbn [MetadataStorage.metadataCount].
  erewrite load_loop_ext; [done|].
  intros j. unfold MetadataStorage.getMetadata.
  cbn [MetadataStorage.metadataCount MetadataStorage.metadataStore].
  destruct (j <? _)%N; [|done].
  destruct (decide (j = _id)) as [->|Hne].
  - by rewrite lookup_total_insert_eq.
  - by rewrite lookup_total_insert_ne.
Qed.




End Cards.

End AppSpec.
